(** * azure-time-series-table-storage: the data generator and the promise wrapper

    A shallow embedding of [DataGenerator.ts] (the hourly water-level
    generator), of [PromiseTableService.ts] and of [main.ts].

    Numbers.  A TypeScript [number] is an IEEE-754 binary64, and the
    generator is embedded twice.

    [Generator64] is the program as it runs: a [number] is a primitive
    [float], every operation rounds as IEEE-754 does, lodash's [range]
    accumulates its steps by rounded additions and throws a [RangeError]
    when the array would be longer than [2^32 - 1], and a [Date] keeps a
    time value without its fraction.  [Math.cos], which the language leaves
    to the platform, is a parameter.

    [DataGenerator] reads every [number] as the real number it denotes:
    [+], [-], [*], [/] are the field operations of [R], [Math.cos] is [cos],
    [Math.PI] is [PI], [Math.ceil] is [Zceil].  This is the reading in which
    the specification writes its formulas.  It serves the statements that
    are about exact arithmetic, and those on which the two readings agree
    (the number of samples, the first sample, what a call returns for a
    negative duration).

    Environment.  [new Date(year, month, day, hour)] reads its arguments as
    local time, so the generator depends on the time zone of the process.
    The embedding makes that dependence a parameter, [Env]. *)

From Stdlib Require Import Reals Lra Lia ZArith String List Bool Floats.
Import ListNotations.

Open Scope R_scope.

(** ** The language's built-ins the generator calls *)

Module JS.

(** A parameter with a default value: [None] is an omitted argument
    ([undefined]), for which the default is taken. *)
Definition default (d : R) (arg : option R) : R :=
  match arg with
  | Some v => v
  | None => d
  end.

(** [ToIntegerOrInfinity] on a finite number: truncation towards zero. *)
Definition ToIntegerOrInfinity (t : R) : Z :=
  if Rle_dec 0 t then Zfloor t else Zceil t.

(** [TimeClip] on a time value inside the range of [Date]. *)
Definition TimeClip (t : R) : R := IZR (ToIntegerOrInfinity t).

(** The host environment: the offset of local time from UTC, in
    milliseconds, at a given local time value ([LocalTZA(t, false)]). *)
Record Env : Type := mkEnv { LocalTZA : Z -> Z }.

Definition msPerDay : Z := 86400000.

Definition DayFromYear (y : Z) : Z :=
  (365 * (y - 1970) + (y - 1969) / 4 - (y - 1901) / 100 + (y - 1601) / 400)%Z.

Definition InLeapYear (y : Z) : bool :=
  ((y mod 4 =? 0) && (negb (y mod 100 =? 0) || (y mod 400 =? 0)))%Z.

(** Days of the year before month [m] (0 is January). *)
Definition DaysBeforeMonth (leap : bool) (m : Z) : Z :=
  let l := if leap then 1%Z else 0%Z in
  match m with
  | 0 => 0
  | 1 => 31
  | 2 => 59 + l
  | 3 => 90 + l
  | 4 => 120 + l
  | 5 => 151 + l
  | 6 => 181 + l
  | 7 => 212 + l
  | 8 => 243 + l
  | 9 => 273 + l
  | 10 => 304 + l
  | _ => 334 + l
  end%Z.

Definition MakeDay (year month date : Z) : Z :=
  let ym := (year + month / 12)%Z in
  let mn := (month mod 12)%Z in
  (DayFromYear ym + DaysBeforeMonth (InLeapYear ym) mn + date - 1)%Z.

Definition MakeTime (hour min sec ms : Z) : Z :=
  (hour * 3600000 + min * 60000 + sec * 1000 + ms)%Z.

Definition MakeDate (day time : Z) : Z := (day * msPerDay + time)%Z.

(** [UTC(t)]: the local time value [t] as a UTC time value. *)
Definition UTC (env : Env) (t : Z) : Z := (t - LocalTZA env t)%Z.

(** A [Date] object is its time value, milliseconds since the epoch. *)
Record Date : Type := mkDate { getTime : R }.

(** [new Date(value)] with a number. *)
Definition newDate (value : R) : Date := mkDate (TimeClip value).

(** [new Date(year, month, day, hours)]: the arguments are local time.
    A year from 0 to 99 stands for 1900 + year. *)
Definition newDateLocal (env : Env) (year month day hours : Z) : Date :=
  let yr := if ((0 <=? year) && (year <=? 99))%Z then (1900 + year)%Z else year in
  let finalDate := MakeDate (MakeDay yr month day) (MakeTime hours 0 0 0) in
  mkDate (TimeClip (IZR (UTC env finalDate))).

End JS.

(** ** lodash's [range]

    [range] is imported from lodash, whose source is not part of the
    repository.  The definitions follow lodash 4's [baseRange]:
<<
    length = nativeMax(nativeCeil((end - start) / (step || 1)), 0)
    while (length--) { result[++index] = start; start += step; }
>>
    [toFinite], which [range] applies to its three arguments first, is the
    identity on finite numbers. *)

Module Lodash.

(** The loop of [baseRange]: [length] rounds, each one stores [start] and
    adds [step] to it. *)
Fixpoint fill (length : nat) (start step : R) : list R :=
  match length with
  | O => []
  | S n => start :: fill n (start + step) step
  end.

Definition baseRange (start end_ step : R) : list R :=
  let step' := if Req_dec_T step 0 then 1 else step in
  let length := Z.max (Zceil ((end_ - start) / step')) 0 in
  fill (Z.to_nat length) start step.

Definition range (start end_ step : R) : list R := baseRange start end_ step.

(** The [length] that [baseRange] hands to [Array(length)]. *)
Definition arrayLength (start end_ step : R) : Z :=
  let step' := if Req_dec_T step 0 then 1 else step in
  Z.max (Zceil ((end_ - start) / step')) 0.

(** [Array(length)] throws a [RangeError] for a length above [2^32 - 1]. *)
Definition maxArrayLength : Z := 4294967295.

End Lodash.

(** ** DataGenerator.ts *)

Module DataGenerator.
Import JS.

Record TelemetryMessage : Type := mkTelemetryMessage {
  waterLevel : R;
  date : Date
}.

(** [makeCycle(x, amplitude = 1, period = 1, trend = 0, yShift = 0)] *)
Definition makeCycle (x : R) (amplitude period trend yShift : option R) : R :=
  let amplitude := default 1 amplitude in
  let period := default 1 period in
  let trend := default 0 trend in
  let yShift := default 0 yShift in
  amplitude * cos (x * ((2 * PI) / period)) + trend * x + yShift.

(** The three summands of [getWaterLevel], in the order of the source. *)
Definition yearlyCycle (x : R) : R :=
  makeCycle x (Some (-30)) (Some 365) (Some 0) (Some 50).

Definition rainfall (x : R) : R :=
  makeCycle x (Some (-0.5)) (Some 10) (Some 0.5) None.

Definition dailyUsage (x : R) : R :=
  makeCycle x (Some (-0.15)) (Some 1) (Some (-0.5)) None.

Definition getWaterLevel (x : R) : R :=
  makeCycle x (Some (-30)) (Some 365) (Some 0) (Some 50) +
  makeCycle x (Some (-0.5)) (Some 10) (Some 0.5) None +
  makeCycle x (Some (-0.15)) (Some 1) (Some (-0.5)) None.

(** [new Date(2020, 0, 1, 0).getTime()] *)
Definition startTime (env : Env) : R := getTime (newDateLocal env 2020 0 1 0).

(** The body of the arrow function mapped over the range. *)
Definition sample (env : Env) (x : R) : TelemetryMessage :=
  {| waterLevel := getWaterLevel x;
     date := newDate (x * 24 * 60 * 60 * 1000 + startTime env) |}.

(** The step values: [range(0, durationDays, 1 / 24)]. *)
Definition steps (durationDays : R) : list R :=
  Lodash.range 0 durationDays (1 / 24).

Definition generateHourlyData (env : Env) (durationDays : R) : list TelemetryMessage :=
  map (sample env) (steps durationDays).

(** How a call ends.  The body of [generateHourlyData] has no [throw]; the
    one thing it calls that throws is [range], whose [Array(length)] raises
    a [RangeError] when the length is above [2^32 - 1].  Otherwise the call
    returns the array, [generateHourlyData]. *)
Inductive ErrorKind : Type := InvalidArgument | RangeError.

Inductive Completion (A : Type) : Type :=
| Returns (a : A)
| Throws (e : ErrorKind).
Arguments Returns {A} a.
Arguments Throws {A} e.

Definition call_generateHourlyData (env : Env) (durationDays : R)
  : Completion (list TelemetryMessage) :=
  if (Lodash.maxArrayLength <? Lodash.arrayLength 0 durationDays (1 / 24))%Z
  then Throws RangeError
  else Returns (generateHourlyData env durationDays).

End DataGenerator.


(** ** PromiseTableService.ts: the table methods

    The wrapped [TableService] comes from azure-storage and is not part of
    the repository: it is a parameter of the embedding.  A method of it is
    named by a [SvcMethod]; [apply fn args svc] is [fn.apply(this.svc, args)]
    run to the point where the service calls the callback back, and gives
    the service afterwards and the arguments the callback received. *)

Module PromiseTableService.

Inductive SvcMethod : Type :=
| svc_doesTableExist
| svc_createTable
| svc_createTableIfNotExists
| svc_deleteTable
| svc_deleteTableIfExists.

Definition SvcMethod_eqb (a b : SvcMethod) : bool :=
  match a, b with
  | svc_doesTableExist, svc_doesTableExist
  | svc_createTable, svc_createTable
  | svc_createTableIfNotExists, svc_createTableIfNotExists
  | svc_deleteTable, svc_deleteTable
  | svc_deleteTableIfExists, svc_deleteTableIfExists => true
  | _, _ => false
  end.

Section Wrapper.

Variables Options Result Response Error Service : Type.

(** An element of [args]: the table name, or the optional request options
    ([None] when the caller left them out). *)
Inductive Arg : Type :=
| ArgTable (table : string)
| ArgOptions (options : option Options).

(** What an [ErrorOrResult] callback receives: [(err, result, response)]. *)
Record CallbackArgs : Type := mkCallbackArgs {
  cb_err : option Error;
  cb_result : Result;
  cb_response : Response
}.

Variable apply : SvcMethod -> list Arg -> Service -> Service * CallbackArgs.

Record ResultResponse : Type := mkResultResponse {
  result : Result;
  response : Response
}.

Inductive Promise (A : Type) : Type :=
| Resolved (a : A)
| Rejected (err : Error).

(** The wrapper object: its [svc] field, and the history of the calls
    [fn.apply(this.svc, args)] it has made, oldest first. *)
Record Wrapper : Type := mkWrapper {
  svc : Service;
  invoked : list (SvcMethod * list Arg)
}.

(** The calls to the method [m] in a history. *)
Definition callsTo (m : SvcMethod) (history : list (SvcMethod * list Arg))
  : list (SvcMethod * list Arg) :=
  filter (fun call => SvcMethod_eqb (fst call) m) history.

(** [promiseHandling]: [err ? reject(err) : resolve({ result, response })] *)
Definition promiseHandling (cb : CallbackArgs) : Promise ResultResponse :=
  match cb_err cb with
  | Some err => Rejected ResultResponse err
  | None => Resolved ResultResponse (mkResultResponse (cb_result cb) (cb_response cb))
  end.

Definition promiseResult (fn : SvcMethod) (args : list Arg) (this : Wrapper)
  : Wrapper * Promise ResultResponse :=
  let (svc', cb) := apply fn args (svc this) in
  (mkWrapper svc' (invoked this ++ [(fn, args)]), promiseHandling cb).

Definition doesTableExist (table : string) (options : option Options) :=
  promiseResult svc_doesTableExist [ArgTable table; ArgOptions options].

Definition createTable (table : string) (options : option Options) :=
  promiseResult svc_createTable [ArgTable table; ArgOptions options].

Definition createTableIfNotExists (table : string) (options : option Options) :=
  promiseResult svc_createTableIfNotExists [ArgTable table; ArgOptions options].

Definition deleteTableIfExists (table : string) (options : option Options) :=
  promiseResult svc_createTable [ArgTable table; ArgOptions options].

End Wrapper.

Arguments ArgTable {Options} table.
Arguments ArgOptions {Options} options.
Arguments svc {Options Service} w.
Arguments invoked {Options Service} w.
Arguments callsTo {Options} m history.
Arguments mkWrapper {Options Service} svc invoked.
Arguments Resolved {Error A} a.
Arguments Rejected {Error A} err.
Arguments result {Result Response} r.
Arguments response {Result Response} r.
Arguments mkCallbackArgs {Result Response Error} cb_err cb_result cb_response.

(** *** An in-memory table service

    A stand-in for the remote service, enough to run the wrapper: the
    account is the list of its table names.  [createTable] fails on a table
    that exists; [deleteTableIfExists] reports whether it deleted one. *)

Inductive MemResult : Type :=
| RBool (b : bool)
| RTable (TableName : string) (created : bool).

Inductive MemError : Type :=
| TableAlreadyExists
| ResourceNotFound
| BadRequest.

Definition hasTable (t : string) (tables : list string) : bool :=
  existsb (String.eqb t) tables.

Definition removeTable (t : string) (tables : list string) : list string :=
  filter (fun u => negb (String.eqb t u)) tables.

Definition memApply (fn : SvcMethod) (args : list (@Arg unit)) (tables : list string)
  : list string * @CallbackArgs MemResult unit MemError :=
  match args with
  | ArgTable t :: _ =>
      let present := hasTable t tables in
      match fn with
      | svc_doesTableExist => (tables, mkCallbackArgs None (RBool present) tt)
      | svc_createTable =>
          if present
          then (tables, mkCallbackArgs (Some TableAlreadyExists) (RTable t false) tt)
          else (t :: tables, mkCallbackArgs None (RTable t true) tt)
      | svc_createTableIfNotExists =>
          if present
          then (tables, mkCallbackArgs None (RTable t false) tt)
          else (t :: tables, mkCallbackArgs None (RTable t true) tt)
      | svc_deleteTable =>
          if present
          then (removeTable t tables, mkCallbackArgs None (RBool true) tt)
          else (tables, mkCallbackArgs (Some ResourceNotFound) (RBool false) tt)
      | svc_deleteTableIfExists =>
          (removeTable t tables, mkCallbackArgs None (RBool present) tt)
      end
  | _ => (tables, mkCallbackArgs (Some BadRequest) (RBool false) tt)
  end.

End PromiseTableService.

(** ** The formulas of the specification

    The specification's [cycle] and its formula for a sample's value, word
    for word; the theorems below compare them with the source's
    [makeCycle] and [getWaterLevel]. *)

Module Spec.

Definition cycle (x amplitude period trend shift : R) : R :=
  amplitude * cos (x * (2 * PI / period)) + trend * x + shift.

Definition yearly (x : R) : R := cycle x (-30) 365 0 50.
Definition rainfall (x : R) : R := cycle x (-0.5) 10 0 0.5.
Definition dailyUsage (x : R) : R := cycle x (-0.15) 1 0 (-0.5).

Definition value (x : R) : R := yearly x + rainfall x + dailyUsage x.

End Spec.

(** ** The first sample in binary64

    The same expressions on binary64 numbers, for the two numbers the
    specification computes by hand: the quotient whose ceiling is the length
    of [range(0, end, 1 / 24)], and the water level.  [Math.cos] is a
    parameter, [cos64]; an omitted [yShift] is written out as its default 0. *)

Module Binary64.

Definition PI : float := 0x1.921fb54442d18p+1%float.

Definition lengthArgument (end_ : float) : float := ((end_ - 0) / (1 / 24))%float.

Definition makeCycle (cos64 : float -> float) (x amplitude period trend yShift : float)
  : float :=
  (amplitude * cos64 (x * ((2 * PI) / period)) + trend * x + yShift)%float.

(** The binary64 number the literal [0.15] denotes. *)
Definition lit_0_15 : float := 0x1.3333333333333p-3%float.

Definition getWaterLevel (cos64 : float -> float) (x : float) : float :=
  (makeCycle cos64 x (-30) 365 0 50 +
   makeCycle cos64 x (-0.5) 10 0.5 0 +
   makeCycle cos64 x (- lit_0_15) 1 (-0.5) 0)%float.

(** The binary64 number the literal [19.35] denotes. *)
Definition lit_19_35 : float := 0x1.359999999999ap+4%float.

End Binary64.

(** ** Hosts

    A process whose local time is UTC, and one in New Zealand, whose local
    time on 1 January 2020 is thirteen hours ahead of UTC; and a host on UTC
    in winter with an hour of daylight saving in the summer of 2020. *)

Module Hosts.

Definition utc : JS.Env := JS.mkEnv (fun _ => 0%Z).

Definition auckland : JS.Env := JS.mkEnv (fun _ => 46800000%Z).

Definition london : JS.Env :=
  JS.mkEnv (fun t => if ((1585443600000 <=? t) && (t <? 1603591200000))%Z
                     then 3600000%Z else 0%Z).

End Hosts.

(** ** PromiseTableService.ts: the whole class

    Every method of the class, the constructor included.  What the class
    does not define is gathered in a [World]: the values it passes on
    without looking at them, the [TableService] of azure-storage with its
    callback methods ([apply], as in the section above), its synchronous
    methods ([call]) and its [withFilter], and the factory
    [createTableService].  A method is one case of [run]. *)

Module WrapperClass.

(** The methods of [TableService] the class reads from [this.svc]; the
    five table methods are those of [PromiseTableService.SvcMethod]. *)
Inductive Method : Type :=
| tableMethod (m : PromiseTableService.SvcMethod)
| svc_withFilter
| svc_getServiceStats
| svc_getServiceProperties
| svc_setServiceProperties
| svc_listTablesSegmented
| svc_listTablesSegmentedWithPrefix
| svc_getTableAcl
| svc_setTableAcl
| svc_generateSharedAccessSignature
| svc_generateSharedAccessSignatureWithVersion
| svc_queryEntities
| svc_retrieveEntity
| svc_insertEntity
| svc_insertOrReplaceEntity
| svc_replaceEntity
| svc_mergeEntity
| svc_insertOrMergeEntity
| svc_deleteEntity
| svc_executeBatch
| svc_getUrl.

Definition tableMethodName (m : PromiseTableService.SvcMethod) : string :=
  match m with
  | PromiseTableService.svc_doesTableExist => "doesTableExist"
  | PromiseTableService.svc_createTable => "createTable"
  | PromiseTableService.svc_createTableIfNotExists => "createTableIfNotExists"
  | PromiseTableService.svc_deleteTable => "deleteTable"
  | PromiseTableService.svc_deleteTableIfExists => "deleteTableIfExists"
  end.

Definition methodName (m : Method) : string :=
  match m with
  | tableMethod t => tableMethodName t
  | svc_withFilter => "withFilter"
  | svc_getServiceStats => "getServiceStats"
  | svc_getServiceProperties => "getServiceProperties"
  | svc_setServiceProperties => "setServiceProperties"
  | svc_listTablesSegmented => "listTablesSegmented"
  | svc_listTablesSegmentedWithPrefix => "listTablesSegmentedWithPrefix"
  | svc_getTableAcl => "getTableAcl"
  | svc_setTableAcl => "setTableAcl"
  | svc_generateSharedAccessSignature => "generateSharedAccessSignature"
  | svc_generateSharedAccessSignatureWithVersion =>
      "generateSharedAccessSignatureWithVersion"
  | svc_queryEntities => "queryEntities"
  | svc_retrieveEntity => "retrieveEntity"
  | svc_insertEntity => "insertEntity"
  | svc_insertOrReplaceEntity => "insertOrReplaceEntity"
  | svc_replaceEntity => "replaceEntity"
  | svc_mergeEntity => "mergeEntity"
  | svc_insertOrMergeEntity => "insertOrMergeEntity"
  | svc_deleteEntity => "deleteEntity"
  | svc_executeBatch => "executeBatch"
  | svc_getUrl => "getUrl"
  end.

Record World : Type := mkWorld {
  Value : Type;
  Result : Type;
  Response : Type;
  Error : Type;
  Service : Type;
  (** [fn.apply(this.svc, args)] for a method that ends in a callback *)
  apply : Method -> list Value -> Service ->
          Service * @PromiseTableService.CallbackArgs Result Response Error;
  (** [this.svc.m(args)] for a method that returns its result *)
  call : Method -> list Value -> Service -> Service * Value;
  (** [this.svc.withFilter(newFilter)] *)
  filtered : Value -> Service -> Service;
  (** [createTableService(...)] of azure-storage, on its argument list *)
  createTableService : list Value -> Service;
  str : string -> Value;
  undefined : Value;
  null : Value
}.

(** An optional string argument, as a caller can pass it. *)
Inductive StringArg : Type :=
| Undefined
| Null
| Str (s : string).

(** Truthiness: of these, only a string that is not empty is truthy. *)
Definition truthy (a : StringArg) : bool :=
  match a with
  | Str s => negb (String.eqb s "")
  | _ => false
  end.

Definition isUndefined (a : StringArg) : bool :=
  match a with
  | Undefined => true
  | _ => false
  end.

Definition valueOf (W : World) (a : StringArg) : Value W :=
  match a with
  | Undefined => undefined W
  | Null => null W
  | Str s => str W s
  end.

(** The object: the field [svc] ([None] while it is not set) and the
    history of the calls it has made to the service, oldest first. *)
Record Client (W : World) : Type := mkClient {
  svc : option (Service W);
  calls : list (Method * list (Value W))
}.
Arguments mkClient {W} svc calls.
Arguments svc {W} c.
Arguments calls {W} c.

Inductive JSError : Type := TypeError.

(** What a method call gives its caller. *)
Inductive Outcome (W : World) : Type :=
| Threw (e : JSError)
| PromiseOfResult
    (p : @PromiseTableService.Promise (Error W)
           (@PromiseTableService.ResultResponse (Result W) (Response W)))
| PromiseOfResponse (p : @PromiseTableService.Promise (Error W) (Response W))
| Returned (v : Value W)
| ReturnedThis.
Arguments Threw {W} e.
Arguments PromiseOfResult {W} p.
Arguments PromiseOfResponse {W} p.
Arguments Returned {W} v.
Arguments ReturnedThis {W}.

(** The constructor. *)
Definition constructor (W : World) (connectionString storageAccessKey : StringArg)
  (host : Value W) : Client W :=
  if truthy connectionString && truthy storageAccessKey then
    mkClient (Some (createTableService W
                      [valueOf W connectionString; valueOf W storageAccessKey; host])) []
  else if truthy connectionString then
    mkClient (Some (createTableService W [valueOf W connectionString])) []
  else if isUndefined connectionString then
    mkClient (Some (createTableService W [])) []
  else
    mkClient None [].

Definition setTableService {W : World} (tableService : Service W) (this : Client W)
  : Client W :=
  mkClient (Some tableService) (calls this).

(** Reading a method off [this.svc]: a [TypeError] while [svc] is not set. *)
Definition withSvc {W : World} (this : Client W)
  (body : Service W -> Client W * Outcome W) : Client W * Outcome W :=
  match svc this with
  | None => (this, Threw TypeError)
  | Some s => body s
  end.

(** [promiseResponse]: [err ? reject(err) : resolve(response)] *)
Definition promiseResponse {W : World} (fn : Method) (args : list (Value W))
  (this : Client W) (s : Service W) : Client W * Outcome W :=
  let (s', cb) := apply W fn args s in
  (mkClient (Some s') (calls this ++ [(fn, args)]),
   PromiseOfResponse
     match PromiseTableService.cb_err _ _ _ cb with
     | Some err => PromiseTableService.Rejected err
     | None => PromiseTableService.Resolved (PromiseTableService.cb_response _ _ _ cb)
     end).

(** [promiseResult]: [err ? reject(err) : resolve({ result, response })] *)
Definition promiseResult {W : World} (fn : Method) (args : list (Value W))
  (this : Client W) (s : Service W) : Client W * Outcome W :=
  let (s', cb) := apply W fn args s in
  (mkClient (Some s') (calls this ++ [(fn, args)]),
   PromiseOfResult (PromiseTableService.promiseHandling _ _ _ cb)).

(** [return this.svc.m(args)] *)
Definition direct {W : World} (fn : Method) (args : list (Value W))
  (this : Client W) (s : Service W) : Client W * Outcome W :=
  let (s', v) := call W fn args s in
  (mkClient (Some s') (calls this ++ [(fn, args)]), Returned v).

(** A call of a method of the class, with its arguments in the order of
    the method's parameters; an optional parameter left out is [undefined]. *)
Inductive Call (W : World) : Type :=
| withFilter (newFilter : Value W)
| getServiceStats (options : Value W)
| getServiceProperties (options : Value W)
| setServiceProperties (serviceProperties options : Value W)
| listTablesSegmented (currentToken options : Value W)
| listTablesSegmentedWithPrefix (prefix currentToken options : Value W)
| getTableAcl (table options : Value W)
| setTableAcl (table signedIdentifiers options : Value W)
| generateSharedAccessSignature (table sharedAccessPolicy : Value W)
| generateSharedAccessSignatureWithVersion (table sharedAccessPolicy sasVersion : Value W)
| doesTableExist (table options : Value W)
| createTable (table options : Value W)
| createTableIfNotExists (table options : Value W)
| deleteTable (serviceProperties options : Value W)
| deleteTableIfExists (table options : Value W)
| queryEntities (table tableQuery currentToken options : Value W)
| retrieveEntity (table partitionKey rowKey options : Value W)
| insertEntityWithExtendedOptions (table entityDescriptor options : Value W)
| insertEntity (table entityDescriptor options : Value W)
| insertOrReplaceEntity (table entityDescriptor options : Value W)
| replaceEntity (table entityDescriptor options : Value W)
| mergeEntity (table entityDescriptor options : Value W)
| insertOrMergeEntity (table entityDescriptor options : Value W)
| deleteEntity (table entityDescriptor options : Value W)
| executeBatch (table batch options : Value W)
| getUrl (table sasToken primary : Value W).
Arguments withFilter {W} newFilter.
Arguments getServiceStats {W} options.
Arguments getServiceProperties {W} options.
Arguments setServiceProperties {W} serviceProperties options.
Arguments listTablesSegmented {W} currentToken options.
Arguments listTablesSegmentedWithPrefix {W} prefix currentToken options.
Arguments getTableAcl {W} table options.
Arguments setTableAcl {W} table signedIdentifiers options.
Arguments generateSharedAccessSignature {W} table sharedAccessPolicy.
Arguments generateSharedAccessSignatureWithVersion {W} table sharedAccessPolicy sasVersion.
Arguments doesTableExist {W} table options.
Arguments createTable {W} table options.
Arguments createTableIfNotExists {W} table options.
Arguments deleteTable {W} serviceProperties options.
Arguments deleteTableIfExists {W} table options.
Arguments queryEntities {W} table tableQuery currentToken options.
Arguments retrieveEntity {W} table partitionKey rowKey options.
Arguments insertEntityWithExtendedOptions {W} table entityDescriptor options.
Arguments insertEntity {W} table entityDescriptor options.
Arguments insertOrReplaceEntity {W} table entityDescriptor options.
Arguments replaceEntity {W} table entityDescriptor options.
Arguments mergeEntity {W} table entityDescriptor options.
Arguments insertOrMergeEntity {W} table entityDescriptor options.
Arguments deleteEntity {W} table entityDescriptor options.
Arguments executeBatch {W} table batch options.
Arguments getUrl {W} table sasToken primary.

Definition callName {W : World} (c : Call W) : string :=
  match c with
  | withFilter _ => "withFilter"
  | getServiceStats _ => "getServiceStats"
  | getServiceProperties _ => "getServiceProperties"
  | setServiceProperties _ _ => "setServiceProperties"
  | listTablesSegmented _ _ => "listTablesSegmented"
  | listTablesSegmentedWithPrefix _ _ _ => "listTablesSegmentedWithPrefix"
  | getTableAcl _ _ => "getTableAcl"
  | setTableAcl _ _ _ => "setTableAcl"
  | generateSharedAccessSignature _ _ => "generateSharedAccessSignature"
  | generateSharedAccessSignatureWithVersion _ _ _ => "generateSharedAccessSignatureWithVersion"
  | doesTableExist _ _ => "doesTableExist"
  | createTable _ _ => "createTable"
  | createTableIfNotExists _ _ => "createTableIfNotExists"
  | deleteTable _ _ => "deleteTable"
  | deleteTableIfExists _ _ => "deleteTableIfExists"
  | queryEntities _ _ _ _ => "queryEntities"
  | retrieveEntity _ _ _ _ => "retrieveEntity"
  | insertEntityWithExtendedOptions _ _ _ => "insertEntityWithExtendedOptions"
  | insertEntity _ _ _ => "insertEntity"
  | insertOrReplaceEntity _ _ _ => "insertOrReplaceEntity"
  | replaceEntity _ _ _ => "replaceEntity"
  | mergeEntity _ _ _ => "mergeEntity"
  | insertOrMergeEntity _ _ _ => "insertOrMergeEntity"
  | deleteEntity _ _ _ => "deleteEntity"
  | executeBatch _ _ _ => "executeBatch"
  | getUrl _ _ _ => "getUrl"
  end.

Definition callArgs {W : World} (c : Call W) : list (Value W) :=
  match c with
  | withFilter newFilter => [newFilter]
  | getServiceStats options => [options]
  | getServiceProperties options => [options]
  | setServiceProperties serviceProperties options => [serviceProperties; options]
  | listTablesSegmented currentToken options => [currentToken; options]
  | listTablesSegmentedWithPrefix prefix currentToken options => [prefix; currentToken; options]
  | getTableAcl table options => [table; options]
  | setTableAcl table signedIdentifiers options => [table; signedIdentifiers; options]
  | generateSharedAccessSignature table sharedAccessPolicy => [table; sharedAccessPolicy]
  | generateSharedAccessSignatureWithVersion table sharedAccessPolicy sasVersion => [table; sharedAccessPolicy; sasVersion]
  | doesTableExist table options => [table; options]
  | createTable table options => [table; options]
  | createTableIfNotExists table options => [table; options]
  | deleteTable serviceProperties options => [serviceProperties; options]
  | deleteTableIfExists table options => [table; options]
  | queryEntities table tableQuery currentToken options => [table; tableQuery; currentToken; options]
  | retrieveEntity table partitionKey rowKey options => [table; partitionKey; rowKey; options]
  | insertEntityWithExtendedOptions table entityDescriptor options => [table; entityDescriptor; options]
  | insertEntity table entityDescriptor options => [table; entityDescriptor; options]
  | insertOrReplaceEntity table entityDescriptor options => [table; entityDescriptor; options]
  | replaceEntity table entityDescriptor options => [table; entityDescriptor; options]
  | mergeEntity table entityDescriptor options => [table; entityDescriptor; options]
  | insertOrMergeEntity table entityDescriptor options => [table; entityDescriptor; options]
  | deleteEntity table entityDescriptor options => [table; entityDescriptor; options]
  | executeBatch table batch options => [table; batch; options]
  | getUrl table sasToken primary => [table; sasToken; primary]
  end.

(** The bodies of the methods. *)
Definition run {W : World} (c : Call W) (this : Client W) : Client W * Outcome W :=
  match c with
  | withFilter newFilter =>
      withSvc this (fun s =>
        (mkClient (Some (filtered W newFilter s))
                  (calls this ++ [(svc_withFilter, [newFilter])]),
         ReturnedThis))
  | getServiceStats options =>
      withSvc this (promiseResult svc_getServiceStats
        [options] this)
  | getServiceProperties options =>
      withSvc this (promiseResult svc_getServiceProperties
        [options] this)
  | setServiceProperties serviceProperties options =>
      withSvc this (promiseResponse svc_setServiceProperties
        [serviceProperties; options] this)
  | listTablesSegmented currentToken options =>
      withSvc this (promiseResult svc_listTablesSegmented
        [currentToken; options] this)
  | listTablesSegmentedWithPrefix prefix currentToken options =>
      withSvc this (promiseResult svc_listTablesSegmentedWithPrefix
        [prefix; currentToken; options] this)
  | getTableAcl table options =>
      withSvc this (promiseResult svc_getTableAcl
        [table; options] this)
  | setTableAcl table signedIdentifiers options =>
      withSvc this (promiseResult svc_setTableAcl
        [table; signedIdentifiers; options] this)
  | generateSharedAccessSignature table sharedAccessPolicy =>
      withSvc this (direct svc_generateSharedAccessSignature
        [table; sharedAccessPolicy] this)
  | generateSharedAccessSignatureWithVersion table sharedAccessPolicy sasVersion =>
      withSvc this (direct svc_generateSharedAccessSignatureWithVersion
        [table; sharedAccessPolicy; sasVersion] this)
  | doesTableExist table options =>
      withSvc this (promiseResult (tableMethod PromiseTableService.svc_doesTableExist)
        [table; options] this)
  | createTable table options =>
      withSvc this (promiseResult (tableMethod PromiseTableService.svc_createTable)
        [table; options] this)
  | createTableIfNotExists table options =>
      withSvc this (promiseResult (tableMethod PromiseTableService.svc_createTableIfNotExists)
        [table; options] this)
  | deleteTable serviceProperties options =>
      withSvc this (promiseResponse (tableMethod PromiseTableService.svc_deleteTable)
        [serviceProperties; options] this)
  | deleteTableIfExists table options =>
      withSvc this (promiseResult (tableMethod PromiseTableService.svc_createTable)
        [table; options] this)
  | queryEntities table tableQuery currentToken options =>
      withSvc this (promiseResult svc_queryEntities
        [table; tableQuery; currentToken; options] this)
  | retrieveEntity table partitionKey rowKey options =>
      withSvc this (promiseResult svc_retrieveEntity
        [table; partitionKey; rowKey; options] this)
  | insertEntityWithExtendedOptions table entityDescriptor options =>
      withSvc this (promiseResult svc_insertEntity
        [table; entityDescriptor; options] this)
  | insertEntity table entityDescriptor options =>
      withSvc this (promiseResult svc_insertEntity
        [table; entityDescriptor; options] this)
  | insertOrReplaceEntity table entityDescriptor options =>
      withSvc this (promiseResult svc_insertOrReplaceEntity
        [table; entityDescriptor; options] this)
  | replaceEntity table entityDescriptor options =>
      withSvc this (promiseResult svc_replaceEntity
        [table; entityDescriptor; options] this)
  | mergeEntity table entityDescriptor options =>
      withSvc this (promiseResult svc_mergeEntity
        [table; entityDescriptor; options] this)
  | insertOrMergeEntity table entityDescriptor options =>
      withSvc this (promiseResult svc_insertOrMergeEntity
        [table; entityDescriptor; options] this)
  | deleteEntity table entityDescriptor options =>
      withSvc this (promiseResult svc_deleteEntity
        [table; entityDescriptor; options] this)
  | executeBatch table batch options =>
      withSvc this (promiseResult svc_executeBatch
        [table; batch; options] this)
  | getUrl table sasToken primary =>
      withSvc this (direct svc_getUrl
        [table; sasToken; primary] this)
  end.

(** A sequence of method calls on the same object, one after the other. *)
Fixpoint runAll {W : World} (cs : list (Call W)) (this : Client W) : Client W :=
  match cs with
  | [] => this
  | c :: cs' => runAll cs' (fst (run c this))
  end.

End WrapperClass.

(** ** main.ts: the start of [main]

    [main] up to the point where it turns to the queue: the check of the
    connection string, the construction of the wrapper, and the two awaited
    calls that are to leave an empty table "test". *)

Module Main.
Import WrapperClass.

Inductive SetupOutcome (W : World) : Type :=
| NoConnectionString (* [throw new Error('No connection string found')] *)
| Thrown (e : JSError) (this : Client W)
| Rejected (err : Error W) (this : Client W)
| TablesReady (this : Client W).
Arguments NoConnectionString {W}.
Arguments Thrown {W} e this.
Arguments Rejected {W} err this.
Arguments TablesReady {W} this.

(** [await]: a rejected promise and a thrown error end [main]; anything
    else lets it go on. *)
Definition await {W : World} (r : Client W * Outcome W)
  (next : Client W -> SetupOutcome W) : SetupOutcome W :=
  match snd r with
  | Threw e => Thrown e (fst r)
  | PromiseOfResult (PromiseTableService.Rejected err) => Rejected err (fst r)
  | PromiseOfResponse (PromiseTableService.Rejected err) => Rejected err (fst r)
  | _ => next (fst r)
  end.

(** [connectionString] is [process.env.AZURE_STORAGE_CONNECTION_STRING]. *)
Definition tableSetup (W : World) (connectionString : StringArg) : SetupOutcome W :=
  if negb (truthy connectionString) then NoConnectionString
  else
    let tableService := constructor W connectionString Undefined (undefined W) in
    await (run (deleteTableIfExists (str W "test") (undefined W)) tableService)
      (fun tableService =>
    await (run (createTable (str W "test") (undefined W)) tableService)
      (fun tableService => TablesReady tableService)).

(** The call to the service that creates the table "test". *)
Definition createTest (W : World) : Method * list (Value W) :=
  (tableMethod PromiseTableService.svc_createTable, [str W "test"; undefined W]).

(** The wrapper as [main] leaves it, when it got to construct one. *)
Definition clientOf {W : World} (o : SetupOutcome W) : option (Client W) :=
  match o with
  | NoConnectionString => None
  | Thrown _ this => Some this
  | Rejected _ this => Some this
  | TablesReady this => Some this
  end.

End Main.

(** ** The in-memory service as a world

    The in-memory table service of above behind the whole class: values are
    table names and options, the methods other than the table methods
    answer with an error, a filter changes nothing, and the factory
    connects to an account without tables. *)

Module MemWorld.
Import PromiseTableService.

Definition memApplyAll (fn : WrapperClass.Method) (args : list (@Arg unit))
  (tables : list string) : list string * @CallbackArgs MemResult unit MemError :=
  match fn with
  | WrapperClass.tableMethod m => memApply m args tables
  | _ => (tables, mkCallbackArgs (Some BadRequest) (RBool false) tt)
  end.

Definition world : WrapperClass.World :=
  WrapperClass.mkWorld (@Arg unit) MemResult unit MemError (list string)
    memApplyAll
    (fun _ _ tables => (tables, ArgOptions None))
    (fun _ tables => tables)
    (fun _ => [])
    ArgTable
    (ArgOptions None)
    (ArgOptions None).

(** The table an argument names is in the account. *)
Definition names (tables : list string) (v : @Arg unit) : Prop :=
  match v with
  | ArgTable t => hasTable t tables = true
  | ArgOptions _ => False
  end.

End MemWorld.

(** ** main.ts: the queue

    The rest of [main], which it reaches when the table setup above ends in
    [TablesReady].  The queue client of @azure/storage-queue,
    [JSON.stringify] and [JSON.parse] are parameters: a [QueueWorld].  An
    awaited call that is rejected ends [main]; [processMessage] parses the
    text of a received message and drops the result, so all that a received
    message can do is make [JSON.parse] throw. *)

Module MainQueue.
Import DataGenerator.

Record QueueWorld : Type := mkQueueWorld {
  Queue : Type;
  QueueError : Type;
  (** [new QueueClient(connectionString, queueName)] *)
  newQueueClient : string -> string -> Queue;
  create : Queue -> Queue * option QueueError;
  clearMessages : Queue -> Queue * option QueueError;
  sendMessage : string -> Queue -> Queue * option QueueError;
  (** the texts of [receivedMessageItems], or the rejection *)
  receiveMessages : Queue -> Queue * (QueueError + list string);
  stringify : TelemetryMessage -> string;
  (** [JSON.parse] returns on this text *)
  parses : string -> bool
}.

Inductive Ending (Q : QueueWorld) : Type :=
| Done (* [console.log('Done')] *)
| QueueRejected (err : QueueError Q)
| SyntaxError.
Arguments Done {Q}.
Arguments QueueRejected {Q} err.
Arguments SyntaxError {Q}.

(** The queue, the texts of the calls of [sendMessage] that resolved
    (oldest first), and how the run ended. *)
Record Run (Q : QueueWorld) : Type := mkRun {
  queue : Queue Q;
  sent : list string;
  ending : Ending Q
}.
Arguments mkRun {Q} queue sent ending.
Arguments queue {Q} r.
Arguments sent {Q} r.
Arguments ending {Q} r.

(** [for (const outMsg of ...) { send; receive; process each }] *)
Fixpoint loop (Q : QueueWorld) (msgs : list TelemetryMessage) (q : Queue Q)
  (sentSoFar : list string) : Run Q :=
  match msgs with
  | [] => mkRun q sentSoFar Done
  | outMsg :: rest =>
      let (q1, err) := sendMessage Q (stringify Q outMsg) q in
      match err with
      | Some e => mkRun q1 sentSoFar (QueueRejected e)
      | None =>
          let sentNow := sentSoFar ++ [stringify Q outMsg] in
          let (q2, received) := receiveMessages Q q1 in
          match received with
          | inl e => mkRun q2 sentNow (QueueRejected e)
          | inr texts =>
              if forallb (parses Q) texts
              then loop Q rest q2 sentNow
              else mkRun q2 sentNow SyntaxError
          end
      end
  end.

Definition queuePart (Q : QueueWorld) (env : JS.Env) (connectionString : string)
  : Run Q :=
  let queueName := "water-level-queue"%string in
  let queueClient := newQueueClient Q connectionString queueName in
  let (q1, err1) := create Q queueClient in
  match err1 with
  | Some e => mkRun q1 [] (QueueRejected e)
  | None =>
      let (q2, err2) := clearMessages Q q1 in
      match err2 with
      | Some e => mkRun q2 [] (QueueRejected e)
      | None => loop Q (generateHourlyData env 7) q2 []
      end
  end.

End MainQueue.

(** [MakeDate(MakeDay(2020, 0, 1), MakeTime(0, 0, 0, 0))]: the local time
    value the generator starts from. *)
Definition localMidnight2020 : Z :=
  Eval cbv in JS.MakeDate (JS.MakeDay 2020 0 1) (JS.MakeTime 0 0 0 0).

(** ** The generator in binary64

    The generator again, on the numbers the program runs on: every [number]
    is a binary64 [float] and every operation rounds as IEEE-754 does.
    [Array(length)] and [new Date(value)] keep their limits.  [Math.cos],
    which the language leaves to the platform, is a parameter. *)

Module Double.

Definition signed (negative : bool) (a : Z) : Z :=
  if negative then (- a)%Z else a.

(** [ToIntegerOrInfinity] on a finite number (the fraction is cut off);
    [None] for NaN and the infinities. *)
Definition toInteger (x : float) : option Z :=
  match Prim2SF x with
  | S754_zero _ => Some 0%Z
  | S754_finite s m e =>
      match e with
      | Z0 => Some (signed s (Zpos m))
      | Zpos p => Some (signed s (Z.shiftl (Zpos m) (Zpos p)))
      | Zneg p => Some (signed s (Z.shiftr (Zpos m) (Zpos p)))
      end
  | _ => None
  end.

(** [Math.ceil], as an integer; [None] for NaN and the infinities. *)
Definition ceil (x : float) : option Z :=
  match Prim2SF x with
  | S754_zero _ => Some 0%Z
  | S754_finite s m e =>
      match e with
      | Z0 => Some (signed s (Zpos m))
      | Zpos p => Some (signed s (Z.shiftl (Zpos m) (Zpos p)))
      | Zneg p =>
          let q := Z.shiftr (Zpos m) (Zpos p) in
          if s then Some (- q)%Z
          else if (Z.shiftl q (Zpos p) =? Zpos m)%Z then Some q
          else Some (q + 1)%Z
      end
  | _ => None
  end.

(** The number an integer denotes (exact up to [2^53]). *)
Definition ofInteger (z : Z) : float :=
  if (Z.abs z <? 9223372036854775808)%Z then
    if (z <? 0)%Z then (- PrimFloat.of_uint63 (Uint63.of_Z (- z)))%float
    else PrimFloat.of_uint63 (Uint63.of_Z z)
  else if (z <? 0)%Z then neg_infinity else infinity.

(** [TimeClip]: NaN for a time value that is not finite or beyond
    8.64e15 ms, else the time value without its fraction. *)
Definition TimeClip (t : float) : float :=
  match toInteger t with
  | Some z => if (8640000000000000 <? Z.abs z)%Z then nan else ofInteger z
  | None => nan
  end.

(** A [Date] object is its time value; NaN is an invalid date. *)
Record Date : Type := mkDate { getTime : float }.

(** [new Date(value)] with a number. *)
Definition newDate (value : float) : Date := mkDate (TimeClip value).

(** [new Date(year, month, day, hours)], local time. *)
Definition newDateLocal (env : JS.Env) (year month day hours : Z) : Date :=
  let yr := if ((0 <=? year) && (year <=? 99))%Z then (1900 + year)%Z else year in
  let finalDate := JS.MakeDate (JS.MakeDay yr month day) (JS.MakeTime hours 0 0 0) in
  mkDate (TimeClip (ofInteger (JS.UTC env finalDate))).

(** A parameter with a default value. *)
Definition default (d : float) (arg : option float) : float :=
  match arg with
  | Some v => v
  | None => d
  end.

End Double.

(** lodash's [range] in binary64:
<<
    start = toFinite(start); end = toFinite(end); step = toFinite(step)
    length = nativeMax(nativeCeil((end - start) / (step || 1)), 0)
    result = Array(length)
    while (length--) { result[++index] = start; start += step; }
>> *)

Module Lodash64.
Import DataGenerator.

Definition MAX_INTEGER : float := 0x1.fffffffffffffp+1023%float.

(** [toFinite]: NaN becomes 0, an infinity the largest finite number of its
    sign. *)
Definition toFinite (value : float) : float :=
  if PrimFloat.is_nan value then 0%float
  else if PrimFloat.is_infinity value then
    (if PrimFloat.get_sign value then (- MAX_INTEGER)%float else MAX_INTEGER)
  else value.

(** The loop: each round stores [start] and adds [step] to it, rounding. *)
Fixpoint fill (length : nat) (start step : float) : list float :=
  match length with
  | O => []
  | S n => start :: fill n (start + step)%float step
  end.

Definition baseRange (start end_ step : float) : Completion (list float) :=
  let step' := if PrimFloat.is_zero step || PrimFloat.is_nan step
               then 1%float else step in
  let quotient := ((end_ - start) / step')%float in
  match Double.ceil quotient with
  | Some c =>
      let length := Z.max c 0 in
      if (Lodash.maxArrayLength <? length)%Z then Throws RangeError
      else Returns (fill (Z.to_nat length) start step)
  | None =>
      (* [Math.max(-Infinity, 0)] is 0; [Array(Infinity)] and [Array(NaN)] throw *)
      if PrimFloat.is_infinity quotient && PrimFloat.get_sign quotient
      then Returns []
      else Throws RangeError
  end.

Definition range (start end_ step : float) : Completion (list float) :=
  baseRange (toFinite start) (toFinite end_) (toFinite step).

End Lodash64.

Module Generator64.
Import DataGenerator Double.

Record TelemetryMessage : Type := mkTelemetryMessage {
  waterLevel : float;
  date : Date
}.

(** The platform: the host's time zone and its [Math.cos]. *)
Record Platform : Type := mkPlatform {
  zone : JS.Env;
  Math_cos : float -> float
}.

Definition makeCycle (cos : float -> float) (x : float)
  (amplitude period trend yShift : option float) : float :=
  let amplitude := default 1 amplitude in
  let period := default 1 period in
  let trend := default 0 trend in
  let yShift := default 0 yShift in
  (amplitude * cos (x * ((2 * Binary64.PI) / period)) + trend * x + yShift)%float.

Definition getWaterLevel (cos : float -> float) (x : float) : float :=
  (makeCycle cos x (Some (-30)) (Some 365) (Some 0) (Some 50) +
   makeCycle cos x (Some (-0.5)) (Some 10) (Some 0.5) None +
   makeCycle cos x (Some (- Binary64.lit_0_15)) (Some 1) (Some (-0.5)) None)%float.

(** [new Date(2020, 0, 1, 0).getTime()] *)
Definition startTime (env : JS.Env) : float :=
  getTime (newDateLocal env 2020 0 1 0).

(** [new Date(x * 24 * 60 * 60 * 1000 + startTime)] *)
Definition dateOf (env : JS.Env) (x : float) : Date :=
  newDate (x * 24 * 60 * 60 * 1000 + startTime env)%float.

(** The body of the arrow function mapped over the range. *)
Definition sample (P : Platform) (x : float) : TelemetryMessage :=
  {| waterLevel := getWaterLevel (Math_cos P) x;
     date := dateOf (zone P) x |}.

(** The step values: [range(0, durationDays, 1 / 24)]. *)
Definition steps (durationDays : float) : Completion (list float) :=
  Lodash64.range 0 durationDays (1 / 24).

Definition generateHourlyData (P : Platform) (durationDays : float)
  : Completion (list TelemetryMessage) :=
  match steps durationDays with
  | Returns xs => Returns (map (sample P) xs)
  | Throws e => Throws e
  end.

(** The specification's [cycle], evaluated in binary64. *)
Definition cycle (cos : float -> float) (x amplitude period trend shift : float)
  : float :=
  (amplitude * cos (x * (2 * Binary64.PI / period)) + trend * x + shift)%float.

(** The timestamps of a returned sequence, in whole milliseconds ([None]
    for an invalid date); nothing when the call threw. *)
Definition timestamps (c : Completion (list TelemetryMessage)) : list (option Z) :=
  match c with
  | Returns l => map (fun s => toInteger (getTime (date s))) l
  | Throws _ => []
  end.

(** The local time offsets in use on 1 January 2020: the whole quarter
    hours from twelve hours behind UTC to fourteen hours ahead. *)
Definition isStandardOffset (offset : Z) : bool :=
  ((-43200000 <=? offset) && (offset <=? 50400000) && (offset mod 900000 =? 0))%Z.

Definition standardOffsets : list Z :=
  map (fun n => (900000 * (Z.of_nat n - 48))%Z) (seq 0 105).

(** The first 1519 steps, which every call that gets that far goes through. *)
Definition firstSteps : list float := Lodash64.fill 1519 0 (1 / 24).

(** The start time on a host with the given offset. *)
Definition startTimeAt (offset : Z) : float :=
  TimeClip (ofInteger (localMidnight2020 - offset)).

(** Whole hours: the time values are the numbers [expected], [expected]
    plus one hour, and so on. *)
Fixpoint hourly (times : list float) (expected : Z) : bool :=
  match times with
  | [] => true
  | t :: rest =>
      PrimFloat.Leibniz.eqb t (ofInteger expected) &&
      hourly rest (expected + 3600000)
  end.

(** On a host with the given offset the start time is local midnight and
    the first 1519 timestamps are whole hours after it. *)
Definition exactHours (offset : Z) : bool :=
  PrimFloat.Leibniz.eqb (startTimeAt offset) (ofInteger (localMidnight2020 - offset)) &&
  hourly (map (fun x => getTime (newDate (x * 24 * 60 * 60 * 1000 + startTimeAt offset)%float))
              firstSteps)
         (localMidnight2020 - offset).

(** The array a call returned; nothing when it threw. *)
Definition returned {A : Type} (c : Completion (list A)) : list A :=
  match c with
  | Returns l => l
  | Throws _ => []
  end.

End Generator64.

(** ** Platforms

    The hosts of above with a cosine.  The cosine is a stand-in for the
    platform's [Math.cos]: the argument is brought near 0 by multiples of
    2 pi and a Taylor polynomial is evaluated there; at 0 it is 1, as the
    language requires of [Math.cos]. *)

Module Platforms.

Definition cosine (x : float) : float :=
  let twoPi := (2 * Binary64.PI)%float in
  let turns := ((x / twoPi + 0x1.8p+52) - 0x1.8p+52)%float in
  let r := (x - turns * twoPi)%float in
  let y := (r * r)%float in
  fold_right (fun d acc => (1 - y / d * acc)%float) 1%float
    [2; 12; 30; 56; 90; 132; 182; 240; 306; 380; 462; 552; 650; 756; 870]%float.

(** Numbers of the examples: what the literals [0.11] and [0.3] denote,
    the two neighbours 2.4 and 2.4000000000000004, and the step at index
    1519, 63.29166666666525. *)
Definition lit_0_11 : float := 0x1.c28f5c28f5c29p-4%float.
Definition lit_0_3 : float := 0x1.3333333333333p-2%float.
Definition lit_2_4 : float := 0x1.3333333333333p+1%float.
Definition lit_2_4_up : float := 0x1.3333333333334p+1%float.
Definition step_1519 : float := 0x1.fa5555555548ep+5%float.

Definition utc : Generator64.Platform := Generator64.mkPlatform Hosts.utc cosine.
Definition auckland : Generator64.Platform :=
  Generator64.mkPlatform Hosts.auckland cosine.
Definition london : Generator64.Platform := Generator64.mkPlatform Hosts.london cosine.

End Platforms.

Import JS Lodash DataGenerator.

(** * Properties *)

(** ** Integers among the reals *)

Lemma Zceil_IZR (z : Z) : Zceil (IZR z) = z.
Proof. apply Zceil_eq; lra. Qed.

Lemma ToIntegerOrInfinity_IZR (z : Z) : ToIntegerOrInfinity (IZR z) = z.
Proof.
  unfold ToIntegerOrInfinity.
  destruct (Rle_dec 0 (IZR z)); [apply ZfloorZ | apply Zceil_IZR].
Qed.

Lemma TimeClip_IZR (z : Z) : TimeClip (IZR z) = IZR z.
Proof. unfold TimeClip. now rewrite ToIntegerOrInfinity_IZR. Qed.

(** ** The range *)

Lemma fill_length (n : nat) (start step : R) : length (fill n start step) = n.
Proof.
  revert start; induction n as [|n IH]; intros start; simpl; [reflexivity|].
  now rewrite IH.
Qed.

Lemma fill_nth_error (n i : nat) (start step : R) :
  (i < n)%nat -> nth_error (fill n start step) i = Some (start + INR i * step).
Proof.
  revert i start; induction n as [|n IH]; intros i start Hi; [lia|].
  destruct i as [|i].
  - simpl. f_equal. lra.
  - cbn [fill nth_error]. rewrite IH by lia. f_equal. rewrite S_INR. lra.
Qed.

Lemma fill_nth_error_inv (n i : nat) (start step x : R) :
  nth_error (fill n start step) i = Some x ->
  (i < n)%nat /\ x = start + INR i * step.
Proof.
  intros H.
  assert (Hi : (i < n)%nat).
  { rewrite <- (fill_length n start step). apply nth_error_Some. congruence. }
  split; [exact Hi|].
  rewrite (fill_nth_error n i start step Hi) in H. congruence.
Qed.

(** The number of steps: the quotient by a step of [1 / 24] is [* 24]. *)
Lemma steps_unfold (d : R) :
  steps d = fill (Z.to_nat (Z.max (Zceil (d * 24)) 0)) 0 (1 / 24).
Proof.
  unfold steps, range, baseRange.
  destruct (Req_dec_T (1 / 24) 0) as [E|_]; [lra|].
  replace ((d - 0) / (1 / 24)) with (d * 24) by field.
  reflexivity.
Qed.

Lemma steps_length (d : R) :
  length (steps d) = Z.to_nat (Z.max (Zceil (d * 24)) 0).
Proof. rewrite steps_unfold. apply fill_length. Qed.

Lemma Zceil_nonneg (r : R) : 0 <= r -> (0 <= Zceil r)%Z.
Proof.
  intros H. apply le_IZR. destruct (Zceil_bound r) as [_ Hb]. simpl. lra.
Qed.

Lemma steps_nth_error (d : R) (i : nat) (x : R) :
  nth_error (steps d) i = Some x ->
  (i < length (steps d))%nat /\ x = INR i / 24.
Proof.
  intros H. rewrite steps_length. rewrite steps_unfold in H.
  apply fill_nth_error_inv in H. destruct H as [Hi ->]. split; [exact Hi | lra].
Qed.

Lemma steps_In (d x : R) :
  In x (steps d) -> exists i : nat, (i < length (steps d))%nat /\ x = INR i / 24.
Proof.
  intros H. apply In_nth_error in H. destruct H as [i H].
  exists i. now apply steps_nth_error.
Qed.

(** ** The reference time and the samples *)

Lemma startTime_eq (env : Env) :
  startTime env = IZR (localMidnight2020 - LocalTZA env localMidnight2020).
Proof.
  unfold startTime, newDateLocal. cbn [getTime].
  rewrite TimeClip_IZR. reflexivity.
Qed.

Lemma sample_time (env : Env) (i : nat) :
  getTime (date (sample env (INR i / 24))) =
  startTime env + IZR (Z.of_nat i * 3600000).
Proof.
  unfold sample, newDate. cbn [date getTime].
  rewrite startTime_eq.
  replace (INR i / 24 * 24 * 60 * 60 * 1000 +
           IZR (localMidnight2020 - LocalTZA env localMidnight2020))
    with (IZR (Z.of_nat i * 3600000 +
               (localMidnight2020 - LocalTZA env localMidnight2020))).
  - rewrite TimeClip_IZR, plus_IZR. lra.
  - rewrite plus_IZR, mult_IZR, <- INR_IZR_INZ. field.
Qed.

Lemma generate_length (env : Env) (d : R) :
  length (generateHourlyData env d) = length (steps d).
Proof. unfold generateHourlyData. apply length_map. Qed.

Lemma generate_nth_error (env : Env) (d : R) (i : nat) (s : TelemetryMessage) :
  nth_error (generateHourlyData env d) i = Some s ->
  (i < length (steps d))%nat /\ s = sample env (INR i / 24).
Proof.
  unfold generateHourlyData. rewrite nth_error_map.
  destruct (nth_error (steps d) i) as [x|] eqn:E; [|discriminate].
  intros [= <-]. apply steps_nth_error in E. destruct E as [Hi ->]. now split.
Qed.

Lemma generate_nth_error_lt (env : Env) (d : R) (i : nat) :
  (i < length (steps d))%nat ->
  nth_error (generateHourlyData env d) i = Some (sample env (INR i / 24)).
Proof.
  intros Hi.
  destruct (nth_error (generateHourlyData env d) i) as [s|] eqn:E.
  - apply generate_nth_error in E. destruct E as [_ ->]. reflexivity.
  - apply nth_error_None in E. rewrite generate_length in E. lia.
Qed.

Lemma generate_In (env : Env) (d : R) (s : TelemetryMessage) :
  In s (generateHourlyData env d) ->
  exists x : R, In x (steps d) /\ s = sample env x.
Proof.
  unfold generateHourlyData. rewrite in_map_iff.
  intros [x [<- Hx]]. now exists x.
Qed.

Lemma steps_of_integer (n : Z) (d : R) :
  d * 24 = IZR n -> length (steps d) = Z.to_nat n.
Proof.
  intros E. rewrite steps_length, E, Zceil_IZR. lia.
Qed.

Lemma steps_7 : length (steps 7) = 168%nat.
Proof. rewrite (steps_of_integer 168); [reflexivity | lra]. Qed.

Lemma steps_1 : length (steps 1) = 24%nat.
Proof. rewrite (steps_of_integer 24); [reflexivity | lra]. Qed.

Lemma arrayLength_steps (d : R) :
  Lodash.arrayLength 0 d (1 / 24) = Z.max (Zceil (d * 24)) 0.
Proof.
  unfold Lodash.arrayLength.
  destruct (Req_dec_T (1 / 24) 0) as [E|_]; [lra|].
  replace ((d - 0) / (1 / 24)) with (d * 24) by field.
  reflexivity.
Qed.

Lemma arrayLength_negative (d : R) :
  d < 0 -> Lodash.arrayLength 0 d (1 / 24) = 0%Z.
Proof.
  intros Hd. rewrite arrayLength_steps.
  assert (H : (Zceil (d * 24) <= 0)%Z).
  { destruct (Zceil_bound (d * 24)) as [Hlo _].
    assert (Hlt : IZR (Zceil (d * 24)) < IZR 1) by (simpl; lra).
    apply lt_IZR in Hlt. lia. }
  lia.
Qed.

Lemma steps_negative (d : R) : d < 0 -> steps d = [].
Proof.
  intros Hd. rewrite steps_unfold.
  assert (H : (Zceil (d * 24) <= 0)%Z).
  { destruct (Zceil_bound (d * 24)) as [Hlo _].
    assert (Hlt : IZR (Zceil (d * 24)) < IZR 1) by (simpl; lra).
    apply lt_IZR in Hlt. lia. }
  rewrite Z.max_r by exact H. reflexivity.
Qed.

(** ** The value of a sample *)

Lemma makeCycle_cycle (x a p t s : R) :
  makeCycle x (Some a) (Some p) (Some t) (Some s) = Spec.cycle x a p t s.
Proof. reflexivity. Qed.

Lemma getWaterLevel_summands (x : R) :
  getWaterLevel x = yearlyCycle x + rainfall x + dailyUsage x.
Proof. reflexivity. Qed.

(** The source's call [makeCycle(x, -0.5, 10, 0.5)] gives its fourth
    argument to [trend] and leaves [yShift] at its default. *)
Lemma rainfall_cycle (x : R) : rainfall x = Spec.cycle x (-0.5) 10 0.5 0.
Proof. reflexivity. Qed.

Lemma dailyUsage_cycle (x : R) : dailyUsage x = Spec.cycle x (-0.15) 1 (-0.5) 0.
Proof. reflexivity. Qed.

Lemma getWaterLevel_cosines (x : R) :
  getWaterLevel x =
  50 - (30 * cos (x * (2 * PI / 365)) + 0.5 * cos (x * (2 * PI / 10)) +
        0.15 * cos (x * (2 * PI / 1))).
Proof. unfold getWaterLevel, makeCycle, default. lra. Qed.

Lemma spec_value_cosines (x : R) :
  Spec.value x =
  50 - (30 * cos (x * (2 * PI / 365)) + 0.5 * cos (x * (2 * PI / 10)) +
        0.15 * cos (x * (2 * PI / 1))).
Proof.
  unfold Spec.value, Spec.yearly, Spec.rainfall, Spec.dailyUsage, Spec.cycle. lra.
Qed.

Lemma getWaterLevel_0 : getWaterLevel 0 = 19.35.
Proof.
  rewrite getWaterLevel_cosines, !Rmult_0_l, cos_0. lra.
Qed.

Lemma zero_is_a_step : In 0 (steps 1).
Proof.
  apply (nth_error_In _ 0%nat).
  rewrite steps_unfold.
  replace (1 * 24) with (IZR 24) by lra.
  rewrite Zceil_IZR. reflexivity.
Qed.

(** C1, as the specification states it, fails at the first step of
    [generateHourlyData 1]: at [x = 0] the source's rainfall summand is
    [-0.5], the specification's (trend 0, shift 0.5) is [0]. *)
Lemma C1_components_counterexample :
  In 0 (steps 1) /\
  ~ (getWaterLevel 0 = Spec.value 0 /\
     rainfall 0 = Spec.cycle 0 (-0.5) 10 0 0.5 /\
     dailyUsage 0 = Spec.cycle 0 (-0.15) 1 0 (-0.5)).
Proof.
  split; [exact zero_is_a_step|].
  intros [_ [H _]]. revert H.
  unfold rainfall, makeCycle, default, Spec.cycle.
  rewrite !Rmult_0_l, cos_0. lra.
Qed.

(** C2: [generateHourlyData 7] has exactly 168 samples, and the first one,
    at step value 0, has the value 19.35. *)
Theorem C2_one_week (env : Env) :
  length (generateHourlyData env 7) = 168%nat /\
  nth_error (generateHourlyData env 7) 0 = Some (sample env 0) /\
  waterLevel (sample env 0) = 19.35.
Proof.
  split; [|split].
  - rewrite generate_length. exact steps_7.
  - rewrite generate_nth_error_lt by (rewrite steps_7; lia).
    do 2 f_equal. simpl. lra.
  - exact getWaterLevel_0.
Qed.

(** C4, as the specification states it, fails at [durationDays = -1]: the
    call returns the empty array; it does not throw. *)
Lemma C4_negative_counterexample :
  call_generateHourlyData Hosts.utc (-1) = Returns [] /\
  call_generateHourlyData Hosts.utc (-1) <> Throws InvalidArgument.
Proof.
  assert (E : call_generateHourlyData Hosts.utc (-1) = Returns []).
  { unfold call_generateHourlyData, generateHourlyData.
    rewrite arrayLength_negative, steps_negative by lra. reflexivity. }
  split; [exact E|]. rewrite E. discriminate.
Qed.

(** C4, amended: for every [durationDays < 0] the call returns, and what it
    returns is the empty array: no sample is produced and no error raised. *)
Theorem C4_negative_is_empty (env : Env) (d : R) :
  d < 0 -> call_generateHourlyData env d = Returns [].
Proof.
  intros Hd. unfold call_generateHourlyData, generateHourlyData.
  rewrite arrayLength_negative, steps_negative by exact Hd. reflexivity.
Qed.

Lemma C4_negative_is_empty_witness :
  -1 < 0 /\ call_generateHourlyData Hosts.utc (-1) = Returns [].
Proof.
  assert (H : -1 < 0) by lra.
  split; [exact H|]. exact (C4_negative_is_empty Hosts.utc (-1) H).
Defined.

(** ** The timestamps *)

Lemma first_sample_utc :
  nth_error (generateHourlyData Hosts.utc 1) 0 = Some (sample Hosts.utc (INR 0 / 24)).
Proof. apply generate_nth_error_lt. rewrite steps_1. lia. Qed.

Lemma first_sample_auckland :
  nth_error (generateHourlyData Hosts.auckland 1) 0 =
  Some (sample Hosts.auckland (INR 0 / 24)).
Proof. apply generate_nth_error_lt. rewrite steps_1. lia. Qed.

(** C5, as the specification states it, fails: the same call, for one day,
    on a host on UTC and on a host in New Zealand gives two different
    sequences (the first timestamps are thirteen hours apart). *)
Lemma C5_hosts_counterexample :
  generateHourlyData Hosts.utc 1 <> generateHourlyData Hosts.auckland 1.
Proof.
  intros H.
  apply (f_equal (fun l => option_map (fun s => getTime (date s)) (nth_error l 0))) in H.
  rewrite first_sample_utc, first_sample_auckland in H.
  cbn [option_map] in H. rewrite !sample_time, !startTime_eq in H.
  injection H as H. rewrite <- !plus_IZR in H.
  apply eq_IZR in H. discriminate H.
Qed.

(** ** The range of the values *)

(** C10: for [durationDays >= 0] the value of every sample lies in
    [[19.35, 80.65]]: the trends [0.5 * x] and [-0.5 * x] cancel, and what is
    left is 50 minus three cosines whose amplitudes add up to 30.65. *)
Theorem C10_value_range (env : Env) (d : R) (s : TelemetryMessage) :
  0 <= d ->
  In s (generateHourlyData env d) ->
  (exists x : R,
     In x (steps d) /\
     waterLevel s =
       50 - (30 * cos (x * (2 * PI / 365)) + 0.5 * cos (x * (2 * PI / 10)) +
             0.15 * cos (x * (2 * PI / 1)))) /\
  19.35 <= waterLevel s <= 80.65.
Proof.
  intros _ H. apply generate_In in H. destruct H as [x [Hx ->]].
  cbn [waterLevel sample]. rewrite getWaterLevel_cosines.
  split; [exists x; split; [exact Hx | reflexivity]|].
  pose proof (COS_bound (x * (2 * PI / 365))) as B1.
  pose proof (COS_bound (x * (2 * PI / 10))) as B2.
  pose proof (COS_bound (x * (2 * PI / 1))) as B3.
  lra.
Qed.

Lemma C10_value_range_witness :
  0 <= 1 /\
  In (sample Hosts.utc 0) (generateHourlyData Hosts.utc 1) /\
  19.35 <= waterLevel (sample Hosts.utc 0) <= 80.65.
Proof.
  assert (Hd : 0 <= 1) by lra.
  assert (H : In (sample Hosts.utc 0) (generateHourlyData Hosts.utc 1)).
  { unfold generateHourlyData. apply in_map. exact zero_is_a_step. }
  split; [exact Hd|]. split; [exact H|].
  exact (proj2 (C10_value_range Hosts.utc 1 (sample Hosts.utc 0) Hd H)).
Defined.

(** ** The promise wrapper *)

Section WrapperProperties.

Import PromiseTableService.

Variables Options Result Response Error Service : Type.
Variable apply : SvcMethod -> list (@Arg Options) -> Service ->
                 Service * @CallbackArgs Result Response Error.

(** C9: whatever the service, the table name and the options,
    [deleteTableIfExists] makes exactly one call to the service, and the
    method it calls is [createTable], with the table name and the options;
    it makes no call to the service's [deleteTableIfExists].  It does what
    the wrapper's [createTable] does: the service is left as its
    [createTable] leaves it, and what the promise settles with is what that
    [createTable] passed to the callback, not the result of a delete. *)
Theorem C9_deleteTableIfExists_calls_createTable
  (table : string) (options : option Options) (this : Wrapper Options Service) :
  let after := deleteTableIfExists _ _ _ _ _ apply table options this in
  let called := apply svc_createTable [ArgTable table; ArgOptions options] (svc this) in
  invoked (fst after) =
    invoked this ++ [(svc_createTable, [ArgTable table; ArgOptions options])] /\
  callsTo svc_deleteTableIfExists (invoked (fst after)) =
    callsTo svc_deleteTableIfExists (invoked this) /\
  after = createTable _ _ _ _ _ apply table options this /\
  svc (fst after) = fst called /\
  snd after = promiseHandling _ _ _ (snd called).
Proof.
  unfold deleteTableIfExists, createTable, promiseResult. cbn zeta.
  destruct (apply svc_createTable [ArgTable table; ArgOptions options] (svc this))
    as [svc' cb].
  cbn [fst snd svc invoked]. repeat split.
  unfold callsTo. rewrite filter_app. cbn. apply app_nil_r.
Qed.

End WrapperProperties.

(** On the in-memory service: on an account without the table "test",
    [deleteTableIfExists "test"] creates it and resolves with the new table
    rather than with a boolean; on an account that has the table, it leaves
    the table there and the promise is rejected. *)
Lemma deleteTableIfExists_in_memory :
  let run := PromiseTableService.deleteTableIfExists
               _ _ _ _ _ PromiseTableService.memApply "test" None in
  let start tables := PromiseTableService.mkWrapper tables [] in
  (PromiseTableService.svc (fst (run (start [])))) = ["test"%string] /\
  snd (run (start [])) =
    PromiseTableService.Resolved
      (PromiseTableService.mkResultResponse _ _
         (PromiseTableService.RTable "test" true) tt) /\
  PromiseTableService.svc (fst (run (start ["test"%string]))) = ["test"%string] /\
  snd (run (start ["test"%string])) =
    PromiseTableService.Rejected PromiseTableService.TableAlreadyExists.
Proof. cbv. repeat split. Qed.

(** ** The first sample in binary64 *)

(** In binary64, [7 / (1 / 24)] is exactly 168, so its ceiling is 168. *)
Lemma binary64_length_argument_7 : Binary64.lengthArgument 7 = 168%float.
Proof. reflexivity. Qed.

(** In binary64, with [Math.cos(0) = 1], the water level at [x = 0] is the
    number nearest to 19.35. *)
Lemma binary64_getWaterLevel_0 (cos64 : float -> float) :
  cos64 0%float = 1%float ->
  Binary64.getWaterLevel cos64 0 = Binary64.lit_19_35.
Proof.
  intros H. unfold Binary64.getWaterLevel, Binary64.makeCycle.
  change (0 * (2 * Binary64.PI / 365))%float with 0%float.
  change (0 * (2 * Binary64.PI / 10))%float with 0%float.
  change (0 * (2 * Binary64.PI / 1))%float with 0%float.
  rewrite H. reflexivity.
Qed.

(** * Further properties of the generator *)

Lemma fill_firstn (n m : nat) (start step : R) :
  (n <= m)%nat -> firstn n (fill m start step) = fill n start step.
Proof.
  revert m start; induction n as [|n IH]; intros m start Hnm; [reflexivity|].
  destruct m as [|m]; [lia|].
  cbn [fill firstn]. rewrite IH by lia. reflexivity.
Qed.

Lemma steps_count_monotone (d1 d2 : R) :
  d1 <= d2 -> (length (steps d1) <= length (steps d2))%nat.
Proof.
  intros H. rewrite !steps_length.
  assert (Hc : (Zceil (d1 * 24) <= Zceil (d2 * 24))%Z) by (apply Zceil_le; lra).
  lia.
Qed.

Lemma steps_prefix (d1 d2 : R) :
  d1 <= d2 -> steps d1 = firstn (length (steps d1)) (steps d2).
Proof.
  intros H. pose proof (steps_count_monotone d1 d2 H) as Hn.
  rewrite (steps_unfold d2), fill_firstn.
  - rewrite steps_length. apply steps_unfold.
  - rewrite <- steps_length. exact Hn.
Qed.

(** X3: a longer duration only appends samples: for [d1 <= d2] the sequence
    for [d1] is the beginning of the sequence for [d2]. *)
Theorem X3_longer_duration_extends (env : Env) (d1 d2 : R) :
  d1 <= d2 ->
  generateHourlyData env d1 =
  firstn (length (generateHourlyData env d1)) (generateHourlyData env d2).
Proof.
  intros H. rewrite generate_length. unfold generateHourlyData.
  rewrite firstn_map, <- steps_prefix by exact H. reflexivity.
Qed.

Lemma X3_longer_duration_extends_witness :
  1 <= 7 /\
  generateHourlyData Hosts.utc 1 =
  firstn (length (generateHourlyData Hosts.utc 1)) (generateHourlyData Hosts.utc 7).
Proof.
  assert (H : 1 <= 7) by lra.
  split; [exact H|]. exact (X3_longer_duration_extends Hosts.utc 1 7 H).
Defined.



(** * Properties of the whole class and of [main] *)

Section ClassProperties.

Import WrapperClass.

Variable W : World.

Lemma run_unset (c : Call W) (this : Client W) :
  svc this = None -> run c this = (this, Threw TypeError).
Proof. intros H. destruct c; cbn; unfold withSvc; rewrite H; reflexivity. Qed.

(** What a method does on an object whose [svc] is set: one call to the
    service, recorded in the history. *)
Lemma run_set (c : Call W) (this : Client W) (s : Service W) :
  svc this = Some s ->
  exists (m : Method) (s' : Service W),
    svc (fst (run c this)) = Some s' /\
    calls (fst (run c this)) = calls this ++ [(m, callArgs c)] /\
    snd (run c this) <> Threw TypeError /\
    m <> tableMethod PromiseTableService.svc_deleteTableIfExists /\
    (methodName m = callName c \/
     (callName c = "deleteTableIfExists"%string /\
      m = tableMethod PromiseTableService.svc_createTable) \/
     (callName c = "insertEntityWithExtendedOptions"%string /\
      m = svc_insertEntity)).
Proof.
  intros H.
  destruct c; cbn [run]; unfold withSvc; rewrite H;
    unfold promiseResult, promiseResponse, direct;
    try (match goal with |- context [apply W ?m ?a s] =>
           destruct (apply W m a s) as [s' cb] end);
    try (match goal with |- context [call W ?m ?a s] =>
           destruct (call W m a s) as [s' v] end);
    cbn [fst snd svc calls callArgs callName];
    eexists; eexists; (split; [reflexivity|]); (split; [reflexivity|]);
    (split; [discriminate|]); (split; [discriminate|]); cbn; tauto.
Qed.

Lemma run_history (c : Call W) (this : Client W) :
  exists added : list (Method * list (Value W)),
    calls (fst (run c this)) = calls this ++ added /\
    (length added <= 1)%nat /\
    Forall (fun entry =>
              fst entry <> tableMethod PromiseTableService.svc_deleteTableIfExists)
           added.
Proof.
  destruct (svc this) as [s|] eqn:E.
  - destruct (run_set c this s E) as [m [s' [_ [Hc [_ [Hm _]]]]]].
    exists [(m, callArgs c)]. split; [exact Hc|]. split; [simpl; lia|].
    constructor; [exact Hm | constructor].
  - rewrite (run_unset c this E). exists []. cbn [fst].
    rewrite app_nil_r. split; [reflexivity|]. split; [simpl; lia | constructor].
Qed.

(** X10: on an object whose [svc] is not set (one constructed with [null]
    and not given a service since) every method throws a [TypeError] at
    once: it returns no promise, calls nothing and changes nothing.  After
    [setTableService] no method throws it. *)
Theorem X10_unset_service_throws (c : Call W) (this : Client W) :
  svc this = None ->
  run c this = (this, Threw TypeError) /\
  forall tableService : Service W,
    snd (run c (setTableService tableService this)) <> Threw TypeError.
Proof.
  intros H. split; [exact (run_unset c this H)|].
  intros t.
  destruct (run_set c (setTableService t this) t eq_refl) as [m [s' [_ [_ [Hn _]]]]].
  exact Hn.
Qed.

(** X11: the constructor leaves [svc] unset exactly when the connection
    string is [null] or the empty string; it passes the host on only when
    connection string and access key are both non-empty strings, and with
    an [undefined] connection string it ignores key and host alike.  A new
    object has made no call. *)
Theorem X11_constructor (connectionString storageAccessKey : StringArg) (host : Value W) :
  (svc (constructor W connectionString storageAccessKey host) = None <->
   connectionString = Null \/ connectionString = Str "") /\
  (truthy connectionString = true -> truthy storageAccessKey = true ->
   svc (constructor W connectionString storageAccessKey host) =
   Some (createTableService W
           [valueOf W connectionString; valueOf W storageAccessKey; host])) /\
  (truthy connectionString = false \/ truthy storageAccessKey = false ->
   forall host' : Value W,
     constructor W connectionString storageAccessKey host' =
     constructor W connectionString storageAccessKey host) /\
  (connectionString = Undefined ->
   constructor W connectionString storageAccessKey host =
   constructor W Undefined Undefined (undefined W)) /\
  calls (constructor W connectionString storageAccessKey host) = [].
Proof.
  unfold constructor. repeat split.
  - destruct connectionString as [| |c]; cbn.
    + discriminate.
    + auto.
    + destruct (String.eqb_spec c ""); cbn.
      * intros _. right. now subst.
      * destruct (truthy storageAccessKey); discriminate.
  - intros [-> | ->]; reflexivity.
  - intros -> ->. reflexivity.
  - intros [-> | ->] host'; [reflexivity|].
    rewrite andb_false_r. reflexivity.
  - intros ->. reflexivity.
  - destruct (truthy connectionString), (truthy storageAccessKey),
      (isUndefined connectionString); reflexivity.
Qed.

(** X12: on an object whose [svc] is set, a method makes exactly one call
    to the service, with its own arguments, all of them, in their order.
    The service method called has the name of the method of the class, with
    two exceptions: [deleteTableIfExists] calls [createTable], and
    [insertEntityWithExtendedOptions] calls [insertEntity].  No method calls
    the service's [deleteTableIfExists]. *)
Theorem X12_one_call_same_name (c : Call W) (this : Client W) (s : Service W) :
  svc this = Some s ->
  exists m : Method,
    calls (fst (run c this)) = calls this ++ [(m, callArgs c)] /\
    m <> tableMethod PromiseTableService.svc_deleteTableIfExists /\
    (methodName m = callName c \/
     (callName c = "deleteTableIfExists"%string /\
      m = tableMethod PromiseTableService.svc_createTable) \/
     (callName c = "insertEntityWithExtendedOptions"%string /\
      m = svc_insertEntity)).
Proof.
  intros H. destruct (run_set c this s H) as [m [s' [_ [Hc [_ [Hm Hn]]]]]].
  exists m. auto.
Qed.

(** X13: over any sequence of method calls the history only grows, by at
    most one call to the service for each call of a method, and none of the
    calls added is a call to the service's [deleteTableIfExists]. *)
Theorem X13_history (cs : list (Call W)) (this : Client W) :
  exists added : list (Method * list (Value W)),
    calls (runAll cs this) = calls this ++ added /\
    (length added <= length cs)%nat /\
    Forall (fun entry =>
              fst entry <> tableMethod PromiseTableService.svc_deleteTableIfExists)
           added.
Proof.
  revert this; induction cs as [|c cs IH]; intros this.
  - exists []. cbn. rewrite app_nil_r. repeat split; [lia | constructor].
  - cbn [runAll]. destruct (run_history c this) as [a1 [E1 [L1 F1]]].
    destruct (IH (fst (run c this))) as [a2 [E2 [L2 F2]]].
    exists (a1 ++ a2). split; [|split].
    + rewrite E2, E1, app_assoc. reflexivity.
    + rewrite length_app. cbn [length]. lia.
    + apply Forall_app. now split.
Qed.

End ClassProperties.

Lemma X10_unset_service_throws_witness :
  let this := WrapperClass.constructor MemWorld.world
                WrapperClass.Null WrapperClass.Undefined
                (WrapperClass.undefined MemWorld.world) in
  let c := WrapperClass.createTable (W := MemWorld.world)
             (PromiseTableService.ArgTable "test")
             (PromiseTableService.ArgOptions None) in
  WrapperClass.svc this = None /\
  WrapperClass.run c this = (this, WrapperClass.Threw WrapperClass.TypeError) /\
  forall tableService : WrapperClass.Service MemWorld.world,
    snd (WrapperClass.run c (WrapperClass.setTableService tableService this)) <>
    WrapperClass.Threw WrapperClass.TypeError.
Proof.
  intros this c.
  assert (H : WrapperClass.svc this = None) by reflexivity.
  split; [exact H|].
  exact (X10_unset_service_throws MemWorld.world c this H).
Defined.

Lemma X11_constructor_witness :
  WrapperClass.truthy (WrapperClass.Str "account") = true /\
  WrapperClass.truthy (WrapperClass.Str "key") = true /\
  WrapperClass.svc
    (WrapperClass.constructor MemWorld.world (WrapperClass.Str "account")
       (WrapperClass.Str "key") (WrapperClass.undefined MemWorld.world)) =
  Some (WrapperClass.createTableService MemWorld.world
          [WrapperClass.valueOf MemWorld.world (WrapperClass.Str "account");
           WrapperClass.valueOf MemWorld.world (WrapperClass.Str "key");
           WrapperClass.undefined MemWorld.world]).
Proof.
  assert (H1 : WrapperClass.truthy (WrapperClass.Str "account") = true) by reflexivity.
  assert (H2 : WrapperClass.truthy (WrapperClass.Str "key") = true) by reflexivity.
  split; [exact H1|]. split; [exact H2|].
  exact (proj1 (proj2 (X11_constructor MemWorld.world (WrapperClass.Str "account")
                         (WrapperClass.Str "key")
                         (WrapperClass.undefined MemWorld.world))) H1 H2).
Defined.

Lemma X12_one_call_same_name_witness :
  let this := WrapperClass.constructor MemWorld.world
                (WrapperClass.Str "UseDevelopmentStorage=true") WrapperClass.Undefined
                (WrapperClass.undefined MemWorld.world) in
  let c := WrapperClass.deleteTableIfExists (W := MemWorld.world)
             (PromiseTableService.ArgTable "test")
             (PromiseTableService.ArgOptions None) in
  WrapperClass.svc this = Some [] /\
  exists m : WrapperClass.Method,
    WrapperClass.calls (fst (WrapperClass.run c this)) =
      WrapperClass.calls this ++ [(m, WrapperClass.callArgs c)] /\
    m <> WrapperClass.tableMethod PromiseTableService.svc_deleteTableIfExists /\
    (WrapperClass.methodName m = WrapperClass.callName c \/
     (WrapperClass.callName c = "deleteTableIfExists"%string /\
      m = WrapperClass.tableMethod PromiseTableService.svc_createTable) \/
     (WrapperClass.callName c = "insertEntityWithExtendedOptions"%string /\
      m = WrapperClass.svc_insertEntity)).
Proof.
  intros this c.
  assert (H : WrapperClass.svc this = Some []) by reflexivity.
  split; [exact H|].
  exact (X12_one_call_same_name MemWorld.world c this [] H).
Defined.

Section MainProperties.

Import WrapperClass Main.

Variable W : World.

Lemma constructor_one_argument (cs : StringArg) :
  truthy cs = true ->
  constructor W cs Undefined (undefined W) =
  mkClient (Some (createTableService W [valueOf W cs])) [].
Proof. intros H. unfold constructor. rewrite H. reflexivity. Qed.

Lemma tableSetup_with_connection_string (connectionString : StringArg) :
  truthy connectionString = true ->
  exists this : Client W,
    clientOf (tableSetup W connectionString) = Some this /\
    (calls this = [createTest W] \/ calls this = [createTest W; createTest W]).
Proof.
  intros E. unfold tableSetup. rewrite E. cbn [negb].
  rewrite (constructor_one_argument _ E).
  cbn [run]. unfold withSvc, promiseResult. cbn [svc].
  destruct (apply W _ _ _) as [s1 cb1].
  unfold await at 1. cbn [fst snd].
  unfold PromiseTableService.promiseHandling.
  destruct (PromiseTableService.cb_err _ _ _ cb1) as [e1|].
  - eexists. split; [reflexivity|]. left. reflexivity.
  - cbn [run]. unfold withSvc, promiseResult. cbn [svc calls].
    destruct (apply W _ _ _) as [s2 cb2].
    unfold await. cbn [fst snd].
    unfold PromiseTableService.promiseHandling.
    destruct (PromiseTableService.cb_err _ _ _ cb2) as [e2|];
      eexists; (split; [reflexivity|]); right; reflexivity.
Qed.

(** X14: [main] throws 'No connection string found' exactly when the
    environment variable is unset or empty, and then it has constructed
    nothing.  With any other connection string it constructs the wrapper
    and asks the service to create the table "test": once, or twice with the
    same arguments, and that is all it asks of the service before it turns
    to the queue.  It never asks for the table to be deleted. *)
Theorem X14_main_asks_for_creation_only (connectionString : StringArg) :
  (tableSetup W connectionString = NoConnectionString <->
   truthy connectionString = false) /\
  (truthy connectionString = false ->
   clientOf (tableSetup W connectionString) = None) /\
  (truthy connectionString = true ->
   exists this : Client W,
     clientOf (tableSetup W connectionString) = Some this /\
     (calls this = [createTest W] \/ calls this = [createTest W; createTest W])).
Proof.
  split; [split|split].
  - intros H. destruct (truthy connectionString) eqn:E; [|reflexivity].
    destruct (tableSetup_with_connection_string _ E) as [this [C _]].
    rewrite H in C. discriminate C.
  - intros E. unfold tableSetup. rewrite E. reflexivity.
  - intros E. unfold tableSetup. rewrite E. reflexivity.
  - exact (tableSetup_with_connection_string connectionString).
Qed.

(** X15: against a service on which [createTable] leaves the table it was
    asked for in place when it succeeds, and fails when that table is in
    place, [main] never gets past its table setup: the first or the second
    of its two calls is rejected. *)
Theorem X15_table_setup_never_completes (present : Service W -> Value W -> Prop) :
  (forall (args : list (Value W)) (s : Service W),
     PromiseTableService.cb_err _ _ _
       (snd (apply W (tableMethod PromiseTableService.svc_createTable) args s)) = None ->
     present (fst (apply W (tableMethod PromiseTableService.svc_createTable) args s))
             (hd (undefined W) args)) ->
  (forall (args : list (Value W)) (s : Service W),
     present s (hd (undefined W) args) ->
     PromiseTableService.cb_err _ _ _
       (snd (apply W (tableMethod PromiseTableService.svc_createTable) args s)) <> None) ->
  forall (connectionString : StringArg) (this : Client W),
    tableSetup W connectionString <> TablesReady this.
Proof.
  intros Hcreated Hconflict cs this H.
  unfold tableSetup in H.
  destruct (truthy cs) eqn:E; [|discriminate H].
  cbn [negb] in H. rewrite (constructor_one_argument _ E) in H.
  cbn [run] in H. unfold withSvc, promiseResult in H. cbn [svc] in H.
  pose proof (Hcreated [str W "test"; undefined W]
                (createTableService W [valueOf W cs])) as Hc.
  destruct (apply W _ _ _) as [s1 cb1] in H, Hc.
  unfold await at 1 in H. cbn [fst snd] in H, Hc.
  unfold PromiseTableService.promiseHandling in H.
  destruct (PromiseTableService.cb_err _ _ _ cb1) as [e1|]; [discriminate H|].
  specialize (Hc eq_refl).
  cbn [run] in H. unfold withSvc, promiseResult in H. cbn [svc calls] in H.
  pose proof (Hconflict [str W "test"; undefined W] s1 Hc) as Hx.
  destruct (apply W _ _ _) as [s2 cb2] in H, Hx.
  unfold await in H. cbn [fst snd] in H, Hx.
  unfold PromiseTableService.promiseHandling in H.
  destruct (PromiseTableService.cb_err _ _ _ cb2) as [e2|]; [discriminate H|].
  now apply Hx.
Qed.

End MainProperties.

(** ** On the in-memory service *)

Lemma mem_createTable_leaves_table
  (args : list (WrapperClass.Value MemWorld.world))
  (s : WrapperClass.Service MemWorld.world) :
  PromiseTableService.cb_err _ _ _
    (snd (WrapperClass.apply MemWorld.world
            (WrapperClass.tableMethod PromiseTableService.svc_createTable) args s)) = None ->
  MemWorld.names
    (fst (WrapperClass.apply MemWorld.world
            (WrapperClass.tableMethod PromiseTableService.svc_createTable) args s))
    (hd (WrapperClass.undefined MemWorld.world) args).
Proof.
  cbn. destruct args as [|[t|o] args]; cbn; try discriminate.
  destruct (PromiseTableService.hasTable t s) eqn:E; cbn; [discriminate|].
  intros _. unfold PromiseTableService.hasTable. cbn.
  rewrite String.eqb_refl. reflexivity.
Qed.

Lemma mem_createTable_conflict
  (args : list (WrapperClass.Value MemWorld.world))
  (s : WrapperClass.Service MemWorld.world) :
  MemWorld.names s (hd (WrapperClass.undefined MemWorld.world) args) ->
  PromiseTableService.cb_err _ _ _
    (snd (WrapperClass.apply MemWorld.world
            (WrapperClass.tableMethod PromiseTableService.svc_createTable) args s)) <> None.
Proof.
  cbn. destruct args as [|[t|o] args]; cbn; try contradiction.
  intros ->. cbn. discriminate.
Qed.

(** The two embeddings of [deleteTableIfExists] agree on the in-memory
    service. *)
Lemma deleteTableIfExists_embeddings_agree (t : string) (o : option unit)
  (tables : list string) :
  let r := WrapperClass.run
             (WrapperClass.deleteTableIfExists (W := MemWorld.world)
                (PromiseTableService.ArgTable t) (PromiseTableService.ArgOptions o))
             (WrapperClass.mkClient (W := MemWorld.world) (Some tables) []) in
  let r0 := PromiseTableService.deleteTableIfExists _ _ _ _ _
              PromiseTableService.memApply t o
              (PromiseTableService.mkWrapper tables []) in
  WrapperClass.svc (fst r) = Some (PromiseTableService.svc (fst r0)) /\
  snd r = WrapperClass.PromiseOfResult (W := MemWorld.world) (snd r0).
Proof.
  cbn. unfold WrapperClass.promiseResult, PromiseTableService.deleteTableIfExists,
         PromiseTableService.promiseResult.
  cbn. unfold PromiseTableService.hasTable.
  destruct (existsb (String.eqb t) tables); cbn; split; reflexivity.
Qed.

Lemma X14_main_asks_for_creation_only_witness :
  WrapperClass.truthy (WrapperClass.Str "UseDevelopmentStorage=true") = true /\
  exists this : WrapperClass.Client MemWorld.world,
    Main.clientOf (Main.tableSetup MemWorld.world
                     (WrapperClass.Str "UseDevelopmentStorage=true")) = Some this /\
    (WrapperClass.calls this = [Main.createTest MemWorld.world] \/
     WrapperClass.calls this =
       [Main.createTest MemWorld.world; Main.createTest MemWorld.world]).
Proof.
  assert (H : WrapperClass.truthy (WrapperClass.Str "UseDevelopmentStorage=true") = true)
    by reflexivity.
  split; [exact H|].
  exact (proj2 (proj2 (X14_main_asks_for_creation_only MemWorld.world
                         (WrapperClass.Str "UseDevelopmentStorage=true"))) H).
Defined.

Lemma X15_table_setup_never_completes_witness :
  Main.tableSetup MemWorld.world (WrapperClass.Str "UseDevelopmentStorage=true") <>
  Main.TablesReady
    (WrapperClass.mkClient (W := MemWorld.world) (Some ["test"%string])
       [Main.createTest MemWorld.world; Main.createTest MemWorld.world]).
Proof.
  exact (X15_table_setup_never_completes MemWorld.world MemWorld.names
           mem_createTable_leaves_table mem_createTable_conflict
           (WrapperClass.Str "UseDevelopmentStorage=true") _).
Defined.

(** ** The queue part of [main] *)

Section QueueProperties.

Import MainQueue.

Variable Q : QueueWorld.

Lemma loop_sent (msgs : list TelemetryMessage) (q : Queue Q) (sentSoFar : list string) :
  exists n : nat,
    (n <= length msgs)%nat /\
    sent (loop Q msgs q sentSoFar) = sentSoFar ++ map (stringify Q) (firstn n msgs) /\
    (ending (loop Q msgs q sentSoFar) = Done -> n = length msgs).
Proof.
  revert q sentSoFar; induction msgs as [|m rest IH]; intros q sentSoFar.
  - exists 0%nat. cbn. rewrite app_nil_r. auto.
  - cbn [loop]. destruct (sendMessage Q (stringify Q m) q) as [q1 [e|]].
    + exists 0%nat. cbn. rewrite app_nil_r.
      repeat split; [lia | discriminate].
    + destruct (receiveMessages Q q1) as [q2 [e|texts]].
      * exists 1%nat. cbn. repeat split; [lia | discriminate].
      * destruct (forallb (parses Q) texts).
        -- destruct (IH q2 (sentSoFar ++ [stringify Q m])) as [n [Hn [Hs Hd]]].
           exists (S n). cbn [length firstn map]. split; [lia|]. split.
           ++ rewrite Hs, <- app_assoc. reflexivity.
           ++ intros E. now rewrite (Hd E).
        -- exists 1%nat. cbn. repeat split; [lia | discriminate].
Qed.

(** X16: whatever the queue does, the texts [main] has sent when it ends
    are the serialized samples of [generateHourlyData(7)] from the first
    one on, in their order, each once: the first [n] of the 168, and all
    168 when [main] gets to print 'Done'. *)
Theorem X16_main_sends_samples_in_order (env : Env) (connectionString : string) :
  exists n : nat,
    (n <= 168)%nat /\
    sent (queuePart Q env connectionString) =
      map (stringify Q) (firstn n (generateHourlyData env 7)) /\
    (ending (queuePart Q env connectionString) = Done -> n = 168%nat).
Proof.
  assert (L : length (generateHourlyData env 7) = 168%nat).
  { rewrite generate_length. exact steps_7. }
  unfold queuePart.
  destruct (create Q _) as [q1 [e1|]].
  - exists 0%nat. cbn. repeat split; [lia | discriminate].
  - destruct (clearMessages Q q1) as [q2 [e2|]].
    + exists 0%nat. cbn. repeat split; [lia | discriminate].
    + destruct (loop_sent (generateHourlyData env 7) q2 []) as [n [Hn [Hs Hd]]].
      rewrite L in Hn, Hd. exists n. auto.
Qed.

End QueueProperties.


(** * The generator in binary64 *)

Section Binary64Generator.

Import Generator64.

Lemma fill64_length (n : nat) (start step : float) :
  length (Lodash64.fill n start step) = n.
Proof.
  revert start; induction n as [|n IH]; intros start; simpl; [reflexivity|].
  now rewrite IH.
Qed.

(** The step at an index does not depend on how many steps are made. *)
Lemma fill64_nth_error (n m i : nat) (start step : float) :
  (i < n)%nat -> (i < m)%nat ->
  nth_error (Lodash64.fill n start step) i =
  nth_error (Lodash64.fill m start step) i.
Proof.
  revert n m start; induction i as [|i IH]; intros n m start Hn Hm;
    destruct n as [|n]; destruct m as [|m]; try lia; cbn [Lodash64.fill nth_error].
  - reflexivity.
  - apply IH; lia.
Qed.

Lemma baseRange_returns (start end_ step : float) (xs : list float) :
  Lodash64.baseRange start end_ step = Returns xs ->
  xs = Lodash64.fill (length xs) start step.
Proof.
  unfold Lodash64.baseRange.
  destruct (Double.ceil _) as [c|].
  - destruct (_ <? _)%Z; [discriminate|].
    intros [= <-]. now rewrite fill64_length.
  - destruct (_ && _); [|discriminate].
    intros [= <-]. reflexivity.
Qed.

Lemma steps_returns (d : float) (xs : list float) :
  steps d = Returns xs -> xs = Lodash64.fill (length xs) 0 (1 / 24).
Proof.
  unfold steps, Lodash64.range. intros H.
  apply baseRange_returns in H. exact H.
Qed.

Lemma generate_returns (P : Platform) (d : float) (l : list TelemetryMessage) :
  generateHourlyData P d = Returns l ->
  exists xs : list float,
    steps d = Returns xs /\ l = map (sample P) xs /\
    xs = Lodash64.fill (length xs) 0 (1 / 24).
Proof.
  unfold generateHourlyData. destruct (steps d) as [xs|e] eqn:E; [|discriminate].
  intros [= <-]. exists xs. split; [reflexivity|]. split; [reflexivity|].
  now apply (steps_returns d).
Qed.

(** The sample at index [i] is the sample of the [i]-th step. *)
Lemma generate_nth_error64 (P : Platform) (d : float) (l : list TelemetryMessage)
  (i : nat) (s : TelemetryMessage) :
  generateHourlyData P d = Returns l ->
  nth_error l i = Some s ->
  exists x : float,
    nth_error (Lodash64.fill (S i) 0 (1 / 24)) i = Some x /\ s = sample P x.
Proof.
  intros H Hs. destruct (generate_returns P d l H) as [xs [_ [-> Hx]]].
  rewrite nth_error_map in Hs.
  destruct (nth_error xs i) as [x|] eqn:E; [|discriminate].
  injection Hs as <-. exists x. split; [|reflexivity].
  assert (Hi : (i < length xs)%nat) by (apply nth_error_Some; congruence).
  rewrite <- E.
  transitivity (nth_error (Lodash64.fill (length xs) 0 (1 / 24)) i).
  - apply fill64_nth_error; lia.
  - rewrite <- Hx. reflexivity.
Qed.

Lemma hourly_nth_error (times : list float) (expected : Z) (i : nat) (t : float) :
  hourly times expected = true ->
  nth_error times i = Some t ->
  t = Double.ofInteger (expected + 3600000 * Z.of_nat i).
Proof.
  revert expected i; induction times as [|t0 rest IH]; intros expected i H Hn.
  - destruct i; discriminate.
  - cbn [hourly] in H. apply andb_prop in H. destruct H as [H0 H].
    destruct i as [|i].
    + injection Hn as <-. apply FloatAxioms.Leibniz.eqb_spec in H0.
      rewrite H0. f_equal. lia.
    + cbn [nth_error] in Hn. rewrite (IH _ _ H Hn). f_equal. lia.
Qed.

Lemma standard_offset_listed (offset : Z) :
  isStandardOffset offset = true -> In offset standardOffsets.
Proof.
  unfold isStandardOffset. intros H.
  apply andb_prop in H. destruct H as [H H3].
  apply andb_prop in H. destruct H as [H1 H2].
  apply Z.leb_le in H1, H2. apply Z.eqb_eq in H3.
  unfold standardOffsets. apply in_map_iff.
  exists (Z.to_nat (offset / 900000 + 48)). split.
  - pose proof (Z.div_mod offset 900000). lia.
  - apply in_seq. pose proof (Z.div_mod offset 900000). lia.
Qed.

(** Checked by evaluation, offset by offset and step by step. *)
Lemma standard_offsets_exact : forallb exactHours standardOffsets = true.
Proof. vm_compute. reflexivity. Qed.

Lemma startTime_at (env : JS.Env) :
  startTime env = startTimeAt (JS.LocalTZA env localMidnight2020).
Proof. reflexivity. Qed.

Lemma standard_exact (env : JS.Env) :
  isStandardOffset (JS.LocalTZA env localMidnight2020) = true ->
  exactHours (JS.LocalTZA env localMidnight2020) = true.
Proof.
  intros H. apply standard_offset_listed in H.
  pose proof standard_offsets_exact as A.
  rewrite forallb_forall in A. exact (A _ H).
Qed.

(** On a host with a standard offset the start time is local midnight of
    1 January 2020. *)
Lemma standard_start (env : JS.Env) :
  isStandardOffset (JS.LocalTZA env localMidnight2020) = true ->
  startTime env =
  Double.ofInteger (localMidnight2020 - JS.LocalTZA env localMidnight2020).
Proof.
  intros H. apply standard_exact in H.
  unfold exactHours in H. apply andb_prop in H. destruct H as [H _].
  apply FloatAxioms.Leibniz.eqb_spec in H. rewrite startTime_at. exact H.
Qed.

(** On a host with a standard offset the sample at an index below 1519 is
    that many whole hours after local midnight. *)
Lemma standard_time (P : Platform) (d : float) (l : list TelemetryMessage)
  (i : nat) (s : TelemetryMessage) :
  isStandardOffset (JS.LocalTZA (zone P) localMidnight2020) = true ->
  generateHourlyData P d = Returns l ->
  (i < 1519)%nat ->
  nth_error l i = Some s ->
  Double.getTime (date s) =
  Double.ofInteger (localMidnight2020 - JS.LocalTZA (zone P) localMidnight2020 +
                    3600000 * Z.of_nat i).
Proof.
  intros Hstd H Hi Hs.
  destruct (generate_nth_error64 P d l i s H Hs) as [x [Hx ->]].
  apply standard_exact in Hstd.
  unfold exactHours in Hstd. apply andb_prop in Hstd. destruct Hstd as [_ A].
  apply (hourly_nth_error _ _ i (Double.getTime (date (sample P x)))) in A.
  - exact A.
  - rewrite nth_error_map. unfold firstSteps.
    rewrite <- (fill64_nth_error (S i) 1519) by lia.
    rewrite Hx. reflexivity.
Qed.

End Binary64Generator.

(** ** The claims about the generator, on the binary64 generator *)

Section Binary64Claims.

Import Generator64.

(** C1, amended: the value of the sample at each index is the sum of three
    cycles at the step of that index, with the parameters of the source: the
    rainfall cycle has trend 0.5 and shift 0, the daily-usage cycle trend
    -0.5 and shift 0.  This holds of the values the program computes, in
    binary64, and of the exact values; in exact arithmetic the sum is the
    one the specification gives, since the two trends cancel as the
    specification's two shifts do. *)
Theorem C1_values_step_by_step (P : Platform) (d : float) (l : list TelemetryMessage)
  (env : JS.Env) (dR : R) :
  generateHourlyData P d = Returns l ->
  (exists xs : list float,
     steps d = Returns xs /\
     map waterLevel l =
     map (fun x => (cycle (Math_cos P) x (-30) 365 0 50 +
                    cycle (Math_cos P) x (-0.5) 10 0.5 0 +
                    cycle (Math_cos P) x (- Binary64.lit_0_15) 1 (-0.5) 0)%float) xs) /\
  map DataGenerator.waterLevel (DataGenerator.generateHourlyData env dR) =
  map (fun x => Spec.cycle x (-30) 365 0 50 + Spec.cycle x (-0.5) 10 0.5 0 +
                Spec.cycle x (-0.15) 1 (-0.5) 0)
      (DataGenerator.steps dR) /\
  (forall x : R,
     Spec.cycle x (-30) 365 0 50 + Spec.cycle x (-0.5) 10 0.5 0 +
     Spec.cycle x (-0.15) 1 (-0.5) 0 = Spec.value x).
Proof.
  intros H. split; [|split].
  - destruct (generate_returns P d l H) as [xs [Hx [-> _]]].
    exists xs. split; [exact Hx|]. rewrite map_map. reflexivity.
  - unfold DataGenerator.generateHourlyData. rewrite map_map. reflexivity.
  - intros x. rewrite spec_value_cosines. unfold Spec.cycle. lra.
Qed.

Lemma generate_one_day :
  generateHourlyData Platforms.utc 1 =
  Returns (map (sample Platforms.utc) (Lodash64.fill 24 0 (1 / 24))).
Proof. vm_compute. reflexivity. Qed.

Lemma C1_values_step_by_step_witness :
  generateHourlyData Platforms.utc 1 =
    Returns (map (sample Platforms.utc) (Lodash64.fill 24 0 (1 / 24))) /\
  exists xs : list float,
    steps 1 = Returns xs /\
    map waterLevel (map (sample Platforms.utc) (Lodash64.fill 24 0 (1 / 24))) =
    map (fun x => (cycle Platforms.cosine x (-30) 365 0 50 +
                   cycle Platforms.cosine x (-0.5) 10 0.5 0 +
                   cycle Platforms.cosine x (- Binary64.lit_0_15) 1 (-0.5) 0)%float) xs.
Proof.
  split; [exact generate_one_day|].
  exact (proj1 (C1_values_step_by_step Platforms.utc 1 _ Hosts.utc 1 generate_one_day)).
Defined.

(** C3, as the specification states it, fails at [durationDays = 178956971]:
    [ceil(durationDays * 24)] is 4294967304, above the largest array length,
    and the call throws a [RangeError] instead of returning that many
    samples, in exact arithmetic and in binary64 alike. *)
Lemma C3_array_length_counterexample :
  0 <= 178956971 /\
  call_generateHourlyData Hosts.utc 178956971 = Throws RangeError /\
  generateHourlyData Platforms.utc 178956971 = Throws RangeError.
Proof.
  split; [lra|]. split.
  - unfold call_generateHourlyData. rewrite arrayLength_steps.
    replace (178956971 * 24) with (IZR 4294967304) by lra.
    rewrite Zceil_IZR. reflexivity.
  - vm_compute. reflexivity.
Qed.

(** C3, amended: for [durationDays >= 0] with [ceil(durationDays * 24)] at
    most [2^32 - 1] the call returns, and the number of samples is the
    ceiling of [durationDays * 24] (the integer [n] with
    [n - 1 < durationDays * 24 <= n]), so it is [durationDays * 24] itself
    when that is an integer; [generateHourlyData 0] is empty; and for a
    larger [durationDays] the call throws a [RangeError]. *)
Theorem C3_number_of_samples_within_array_limit (env : JS.Env) (d : R) :
  0 <= d ->
  ((Zceil (d * 24) <= Lodash.maxArrayLength)%Z ->
   call_generateHourlyData env d = Returns (DataGenerator.generateHourlyData env d) /\
   Z.of_nat (length (DataGenerator.generateHourlyData env d)) = Zceil (d * 24) /\
   IZR (Zceil (d * 24)) - 1 < d * 24 <= IZR (Zceil (d * 24)) /\
   (forall n : Z, d * 24 = IZR n ->
      Z.of_nat (length (DataGenerator.generateHourlyData env d)) = n)) /\
  ((Lodash.maxArrayLength < Zceil (d * 24))%Z ->
   call_generateHourlyData env d = Throws RangeError) /\
  call_generateHourlyData env 0 = Returns [].
Proof.
  intros Hd.
  assert (Hc : (0 <= Zceil (d * 24))%Z) by (apply Zceil_nonneg; lra).
  assert (Hl : Z.of_nat (length (DataGenerator.generateHourlyData env d)) =
               Zceil (d * 24)).
  { rewrite generate_length, steps_length. lia. }
  split; [|split].
  - intros Hmax. split; [|split; [exact Hl|split; [apply Zceil_bound|]]].
    + unfold call_generateHourlyData. rewrite arrayLength_steps.
      destruct (Z.ltb_spec Lodash.maxArrayLength (Z.max (Zceil (d * 24)) 0));
        [lia | reflexivity].
    + intros n E. rewrite Hl, E. apply Zceil_IZR.
  - intros Hmax. unfold call_generateHourlyData. rewrite arrayLength_steps.
    destruct (Z.ltb_spec Lodash.maxArrayLength (Z.max (Zceil (d * 24)) 0));
      [reflexivity | lia].
  - unfold call_generateHourlyData, DataGenerator.generateHourlyData.
    rewrite arrayLength_steps, steps_unfold.
    replace (0 * 24) with (IZR 0) by (simpl; lra).
    rewrite Zceil_IZR. reflexivity.
Qed.

Lemma C3_number_of_samples_within_array_limit_witness :
  0 <= 7 /\
  (Zceil (7 * 24) <= Lodash.maxArrayLength)%Z /\
  call_generateHourlyData Hosts.utc 7 =
    Returns (DataGenerator.generateHourlyData Hosts.utc 7) /\
  Z.of_nat (length (DataGenerator.generateHourlyData Hosts.utc 7)) = Zceil (7 * 24).
Proof.
  assert (H : 0 <= 7) by lra.
  assert (M : (Zceil (7 * 24) <= Lodash.maxArrayLength)%Z).
  { replace (7 * 24) with (IZR 168) by lra. rewrite Zceil_IZR.
    unfold Lodash.maxArrayLength. lia. }
  split; [exact H|]. split; [exact M|].
  destruct (proj1 (C3_number_of_samples_within_array_limit Hosts.utc 7 H) M)
    as [R [L _]].
  split; [exact R | exact L].
Defined.

(** C5, amended: two calls with the same [durationDays], on platforms with
    the same [Math.cos] and the same local time offset at local midnight of
    1 January 2020, give the same result: the same numbers bit for bit and
    the same timestamps. *)
Theorem C5_same_platform_same_sequence (P1 P2 : Platform) (d : float) :
  (forall x : float, Math_cos P1 x = Math_cos P2 x) ->
  JS.LocalTZA (zone P1) localMidnight2020 = JS.LocalTZA (zone P2) localMidnight2020 ->
  generateHourlyData P1 d = generateHourlyData P2 d.
Proof.
  intros Hcos Hzone. unfold generateHourlyData.
  destruct (steps d) as [xs|e]; [|reflexivity].
  f_equal. apply map_ext. intros x. unfold sample. f_equal.
  - unfold getWaterLevel, makeCycle. rewrite !Hcos. reflexivity.
  - unfold dateOf. rewrite !startTime_at, Hzone. reflexivity.
Qed.

Lemma C5_same_platform_same_sequence_witness :
  (forall x : float, Math_cos Platforms.utc x = Math_cos Platforms.london x) /\
  JS.LocalTZA (zone Platforms.utc) localMidnight2020 =
    JS.LocalTZA (zone Platforms.london) localMidnight2020 /\
  generateHourlyData Platforms.utc 1 = generateHourlyData Platforms.london 1.
Proof.
  assert (Hc : forall x : float,
             Math_cos Platforms.utc x = Math_cos Platforms.london x)
    by (intros x; reflexivity).
  assert (Hz : JS.LocalTZA (zone Platforms.utc) localMidnight2020 =
               JS.LocalTZA (zone Platforms.london) localMidnight2020)
    by reflexivity.
  split; [exact Hc|]. split; [exact Hz|].
  exact (C5_same_platform_same_sequence Platforms.utc Platforms.london 1 Hc Hz).
Defined.

(** C6, as the specification states it, fails in [generateHourlyData 64]
    on a host on UTC: the samples at indices 1518 and 1519 are 3,599,999 ms
    apart.  (The step at index 1519, built by adding the binary64 [1 / 24]
    1519 times, is 63.29166666666525; its time value 1583305199999.9998
    loses its fraction in the [Date].) *)
Lemma C6_spacing_counterexample :
  nth_error (timestamps (generateHourlyData Platforms.utc 64)) 1518 =
    Some (Some 1583301600000%Z) /\
  nth_error (timestamps (generateHourlyData Platforms.utc 64)) 1519 =
    Some (Some 1583305199999%Z) /\
  (1583305199999 - 1583301600000 <> 3600000)%Z.
Proof.
  split; [vm_compute; reflexivity|]. split; [vm_compute; reflexivity|]. lia.
Qed.

(** C6, amended: on a host whose local time offset is a whole number of
    quarter hours from -12 h to +14 h, whatever the duration, the timestamps
    of two consecutive samples with indices below 1519 differ by exactly
    3,600,000 ms: up to index 1518 the timestamps ascend strictly, one hour
    apart. *)
Theorem C6_hourly_spacing_below_1519 (P : Platform) (d : float)
  (l : list TelemetryMessage) (i : nat) (s1 s2 : TelemetryMessage) :
  isStandardOffset (JS.LocalTZA (zone P) localMidnight2020) = true ->
  generateHourlyData P d = Returns l ->
  (S i < 1519)%nat ->
  nth_error l i = Some s1 ->
  nth_error l (S i) = Some s2 ->
  exists t1 t2 : Z,
    Double.getTime (date s1) = Double.ofInteger t1 /\
    Double.getTime (date s2) = Double.ofInteger t2 /\
    (t2 - t1 = 3600000)%Z /\ (t1 < t2)%Z.
Proof.
  intros Hstd H Hi H1 H2.
  eexists. eexists. split; [|split].
  - apply (standard_time P d l i s1 Hstd H); [lia | exact H1].
  - apply (standard_time P d l (S i) s2 Hstd H); [lia | exact H2].
  - lia.
Qed.

Lemma C6_hourly_spacing_below_1519_witness :
  isStandardOffset (JS.LocalTZA (zone Platforms.utc) localMidnight2020) = true /\
  (1 < 1519)%nat /\
  exists t1 t2 : Z,
    Double.getTime (date (sample Platforms.utc 0)) = Double.ofInteger t1 /\
    Double.getTime (date (sample Platforms.utc (0 + 1 / 24))) = Double.ofInteger t2 /\
    (t2 - t1 = 3600000)%Z /\ (t1 < t2)%Z.
Proof.
  assert (Hs : isStandardOffset
                 (JS.LocalTZA (zone Platforms.utc) localMidnight2020) = true)
    by reflexivity.
  assert (Hi : (1 < 1519)%nat) by lia.
  split; [exact Hs|]. split; [exact Hi|].
  exact (C6_hourly_spacing_below_1519 Platforms.utc 1 _ 0 _ _ Hs generate_one_day Hi
           eq_refl eq_refl).
Defined.

(** C7, as the specification states it, fails at index 1519 of
    [generateHourlyData 64] on a host on UTC: the step there is
    63.29166666666525 and the timestamp is 1583305199999, while the start
    time plus the step times 86,400,000 is 1583305200000.  Nor is the start
    time one fixed time: on a host in New Zealand it is another. *)
Lemma C7_timestamp_counterexample :
  nth_error (returned (steps 64)) 1519 = Some Platforms.step_1519 /\
  nth_error (timestamps (generateHourlyData Platforms.utc 64)) 1519 =
    Some (Some 1583305199999%Z) /\
  Double.toInteger (startTime Hosts.utc + Platforms.step_1519 * 86400000)%float =
    Some 1583305200000%Z /\
  Double.toInteger (startTime Hosts.utc) = Some 1577836800000%Z /\
  Double.toInteger (startTime Hosts.auckland) = Some 1577790000000%Z.
Proof.
  repeat split; vm_compute; reflexivity.
Qed.

(** C7, amended: the timestamp of the sample at a step [x] is the binary64
    value of [x * 24 * 60 * 60 * 1000 + startTime] without its fraction,
    where [startTime] is midnight of 1 January 2020 in the host's local
    time: 1,577,836,800,000 ms less the host's offset, a time that differs
    from zone to zone.  On a host whose offset is a whole number of quarter
    hours from -12 h to +14 h, the timestamp at an index [i] below 1519 is
    [startTime + i * 3,600,000]. *)
Theorem C7_timestamp_of_step (P : Platform) (d : float) (l : list TelemetryMessage) :
  generateHourlyData P d = Returns l ->
  (exists xs : list float,
     steps d = Returns xs /\
     map date l =
     map (fun x => Double.newDate (x * 24 * 60 * 60 * 1000 + startTime (zone P))%float)
         xs) /\
  startTime (zone P) =
    Double.TimeClip
      (Double.ofInteger
         (JS.MakeDate (JS.MakeDay 2020 0 1) (JS.MakeTime 0 0 0 0) -
          JS.LocalTZA (zone P) localMidnight2020)) /\
  (isStandardOffset (JS.LocalTZA (zone P) localMidnight2020) = true ->
   startTime (zone P) =
     Double.ofInteger (localMidnight2020 - JS.LocalTZA (zone P) localMidnight2020) /\
   forall (i : nat) (s : TelemetryMessage),
     (i < 1519)%nat -> nth_error l i = Some s ->
     Double.getTime (date s) =
     Double.ofInteger (localMidnight2020 - JS.LocalTZA (zone P) localMidnight2020 +
                       3600000 * Z.of_nat i)).
Proof.
  intros H. split; [|split].
  - destruct (generate_returns P d l H) as [xs [Hx [-> _]]].
    exists xs. split; [exact Hx|]. rewrite map_map. reflexivity.
  - reflexivity.
  - intros Hstd. split; [exact (standard_start _ Hstd)|].
    intros i s Hi Hs. exact (standard_time P d l i s Hstd H Hi Hs).
Qed.

Lemma C7_timestamp_of_step_witness :
  generateHourlyData Platforms.utc 1 =
    Returns (map (sample Platforms.utc) (Lodash64.fill 24 0 (1 / 24))) /\
  isStandardOffset (JS.LocalTZA (zone Platforms.utc) localMidnight2020) = true /\
  startTime (zone Platforms.utc) = Double.ofInteger 1577836800000 /\
  Double.getTime (date (sample Platforms.utc (0 + 1 / 24))) =
    Double.ofInteger (1577836800000 + 3600000 * 1).
Proof.
  assert (Hs : isStandardOffset
                 (JS.LocalTZA (zone Platforms.utc) localMidnight2020) = true)
    by reflexivity.
  split; [exact generate_one_day|]. split; [exact Hs|].
  destruct (proj2 (proj2 (C7_timestamp_of_step Platforms.utc 1 _ generate_one_day)) Hs)
    as [S0 T].
  split; [exact S0|].
  assert (Hi : (1 < 1519)%nat) by lia.
  exact (T 1%nat _ Hi eq_refl).
Defined.

(** C8, as the specification states it, fails in binary64 at [x = 10]: with
    amplitude 1, period 10, shift 0.3 and trend 0.11 the cycle is 2.4, while
    the cycle without trend plus [10 * 0.11] is 2.4000000000000004.  (The
    cosine is taken at 6.283185307179586, where it is 1.) *)
Lemma C8_trend_counterexample :
  (10 * ((2 * Binary64.PI) / 10))%float = 0x1.921fb54442d18p+2%float /\
  Platforms.cosine 0x1.921fb54442d18p+2 = 1%float /\
  makeCycle Platforms.cosine 10 (Some 1%float) (Some 10%float)
    (Some Platforms.lit_0_11) (Some Platforms.lit_0_3) = Platforms.lit_2_4 /\
  (makeCycle Platforms.cosine 10 (Some 1%float) (Some 10%float)
     (Some 0%float) (Some Platforms.lit_0_3) + 10 * Platforms.lit_0_11)%float =
    Platforms.lit_2_4_up /\
  PrimFloat.eqb Platforms.lit_2_4 Platforms.lit_2_4_up = false.
Proof.
  repeat split; vm_compute; reflexivity.
Qed.

(** The same on every platform whose [Math.cos] is 1 at 6.283185307179586. *)
Lemma trend_not_exact (cos : float -> float) :
  cos 0x1.921fb54442d18p+2%float = 1%float ->
  makeCycle cos 10 (Some 1%float) (Some 10%float)
    (Some Platforms.lit_0_11) (Some Platforms.lit_0_3) = Platforms.lit_2_4 /\
  (makeCycle cos 10 (Some 1%float) (Some 10%float)
     (Some 0%float) (Some Platforms.lit_0_3) + 10 * Platforms.lit_0_11)%float =
    Platforms.lit_2_4_up.
Proof.
  intros H. unfold makeCycle, Double.default.
  change (10 * ((2 * Binary64.PI) / 10))%float with 0x1.921fb54442d18p+2%float.
  rewrite H. split; reflexivity.
Qed.

(** C8, amended: [makeCycle] is
    [amplitude * cos (x * (2 * PI / period)) + trend * x + shift], each
    operation rounded to binary64, with an omitted amplitude, period, trend
    or shift counting as 1, 1, 0, 0.  In exact arithmetic, and for a nonzero
    period, a trend [T] adds exactly [10 * T] at [x = 10] to the result
    without trend; in binary64 the two can differ in the last place, as
    they do for amplitude 1, period 10, trend 0.11 and shift 0.3 wherever
    [Math.cos] is 1 at 6.283185307179586. *)
Theorem C8_makeCycle_formula (cos : float -> float) (x amplitude period trend shift : float)
  (a p t s : option float) :
  makeCycle cos x (Some amplitude) (Some period) (Some trend) (Some shift) =
    (amplitude * cos (x * (2 * Binary64.PI / period)) + trend * x + shift)%float /\
  makeCycle cos x a p t s =
    makeCycle cos x (Some (Double.default 1 a)) (Some (Double.default 1 p))
                    (Some (Double.default 0 t)) (Some (Double.default 0 s)) /\
  makeCycle cos x None None None None =
    (1 * cos (x * (2 * Binary64.PI / 1)) + 0 * x + 0)%float /\
  (forall xR aR pR tR sR : R,
     pR <> 0 ->
     DataGenerator.makeCycle xR (Some aR) (Some pR) (Some tR) (Some sR) =
       aR * Rtrigo_def.cos (xR * (2 * Rtrigo1.PI / pR)) + tR * xR + sR /\
     DataGenerator.makeCycle 10 (Some aR) (Some pR) (Some tR) (Some sR) =
       DataGenerator.makeCycle 10 (Some aR) (Some pR) (Some 0) (Some sR) + 10 * tR) /\
  (cos 0x1.921fb54442d18p+2%float = 1%float ->
   PrimFloat.eqb
     (makeCycle cos 10 (Some 1%float) (Some 10%float)
        (Some Platforms.lit_0_11) (Some Platforms.lit_0_3))
     (makeCycle cos 10 (Some 1%float) (Some 10%float)
        (Some 0%float) (Some Platforms.lit_0_3) + 10 * Platforms.lit_0_11)%float = false).
Proof.
  split; [reflexivity|]. split; [reflexivity|]. split; [reflexivity|]. split.
  - intros xR aR pR tR sR _. split; [reflexivity|].
    unfold DataGenerator.makeCycle, JS.default. lra.
  - intros H. destruct (trend_not_exact cos H) as [-> ->]. reflexivity.
Qed.

Lemma C8_makeCycle_formula_witness :
  365 <> 0 /\
  DataGenerator.makeCycle 10 (Some (-30)) (Some 365) (Some 2) (Some 50) =
    DataGenerator.makeCycle 10 (Some (-30)) (Some 365) (Some 0) (Some 50) + 10 * 2.
Proof.
  assert (H : 365 <> 0) by lra.
  split; [exact H|].
  exact (proj2 (proj1 (proj2 (proj2 (proj2
           (C8_makeCycle_formula Platforms.cosine 10 1 10 0 0 None None None None))))
           10 (-30) 365 2 50 H)).
Defined.

(** X1: the sample at an index is the sample of the step reached by adding
    the binary64 [1 / 24] that many times to 0, whatever the duration: two
    calls on a platform that both return a sample at an index return the
    same sample there. *)
Theorem X1_sample_at_index_binary64 (P : Platform) (d1 d2 : float)
  (l1 l2 : list TelemetryMessage) (i : nat) (s1 s2 : TelemetryMessage) :
  generateHourlyData P d1 = Returns l1 ->
  generateHourlyData P d2 = Returns l2 ->
  nth_error l1 i = Some s1 ->
  nth_error l2 i = Some s2 ->
  s1 = s2 /\
  exists x : float,
    nth_error (Lodash64.fill (S i) 0 (1 / 24)) i = Some x /\ s1 = sample P x.
Proof.
  intros H1 H2 E1 E2.
  destruct (generate_nth_error64 P d1 l1 i s1 H1 E1) as [x1 [X1 ->]].
  destruct (generate_nth_error64 P d2 l2 i s2 H2 E2) as [x2 [X2 ->]].
  assert (x1 = x2) by congruence. subst x2.
  split; [reflexivity|]. exists x1. split; [exact X1 | reflexivity].
Qed.

Lemma generate_one_week :
  generateHourlyData Platforms.utc 7 =
  Returns (map (sample Platforms.utc) (Lodash64.fill 168 0 (1 / 24))).
Proof. vm_compute. reflexivity. Qed.

Lemma X1_sample_at_index_binary64_witness :
  generateHourlyData Platforms.utc 1 =
    Returns (map (sample Platforms.utc) (Lodash64.fill 24 0 (1 / 24))) /\
  generateHourlyData Platforms.utc 7 =
    Returns (map (sample Platforms.utc) (Lodash64.fill 168 0 (1 / 24))) /\
  nth_error (map (sample Platforms.utc) (Lodash64.fill 24 0 (1 / 24))) 23 =
  nth_error (map (sample Platforms.utc) (Lodash64.fill 168 0 (1 / 24))) 23.
Proof.
  split; [exact generate_one_day|]. split; [exact generate_one_week|].
  destruct (nth_error (map (sample Platforms.utc) (Lodash64.fill 24 0 (1 / 24))) 23)
    as [s1|] eqn:E1;
  destruct (nth_error (map (sample Platforms.utc) (Lodash64.fill 168 0 (1 / 24))) 23)
    as [s2|] eqn:E2; try (vm_compute in E1; discriminate E1);
    try (vm_compute in E2; discriminate E2).
  f_equal.
  exact (proj1 (X1_sample_at_index_binary64 Platforms.utc 1 7 _ _ 23 s1 s2
                  generate_one_day generate_one_week E1 E2)).
Defined.

End Binary64Claims.
